(** * proton.api.Session: a shallow embedding of [src/proton/api.py]

    The Python class [Session] is embedded as a record of its attributes
    together with state-passing functions, one per method.  Exceptions are
    values of type [exn]; a method is a function from the machine state to a
    result and the state it leaves behind (an exception does not roll the
    state back, as in Python).

    Everything the module imports but does not define (the [requests]
    transport, the [MetadataBackend] route cache, [gnupg], the SRP user of
    [proton.srp], [dnspython], [base64] and the constants) is gathered in the
    class [Externals]; theorems hold for every instance of it.

    Left out of the model: the logger; the [callback] argument of
    [get_alternative_routes_from_dns] (the method is taken with
    [callback=None]); the 20 second deadline of [executor.map], whose
    results are taken in the order of [DNS_HOSTS]; the cookies a response
    may add to the jar of the [requests.Session] (a method leaves the jar
    as it is; [api_made] lets the jar change between the calls). *)

From stdpp Require Import base option list gmap strings.
From Stdlib Require Import ZArith Ascii String Lia.

Set Warnings "-register-all".
Local Open Scope string_scope.
Local Open Scope Z_scope.

(** ** Python values *)

(** JSON-shaped Python values: [None], [bool], [int], [str], [list], [dict].
    A dict is kept as an association list looked up by first match. *)
Inductive json : Type :=
  | JNull
  | JBool (b : bool)
  | JNum (n : Z)
  | JStr (s : string)
  | JArr (l : list json)
  | JObj (d : list (string * json)).

Fixpoint json_eqb (a b : json) {struct a} : bool :=
  let fix arr (l1 l2 : list json) {struct l1} : bool :=
    match l1, l2 with
    | [], [] => true
    | x :: l1', y :: l2' => json_eqb x y && arr l1' l2'
    | _, _ => false
    end in
  let fix obj (d1 d2 : list (string * json)) {struct d1} : bool :=
    match d1, d2 with
    | [], [] => true
    | (k1, x) :: d1', (k2, y) :: d2' => String.eqb k1 k2 && json_eqb x y && obj d1' d2'
    | _, _ => false
    end in
  match a, b with
  | JNull, JNull => true
  | JBool x, JBool y => Bool.eqb x y
  | JNum x, JNum y => Z.eqb x y
  | JStr x, JStr y => String.eqb x y
  | JArr x, JArr y => arr x y
  | JObj x, JObj y => obj x y
  | _, _ => false
  end.

(** [bool(v)]: Python truthiness. *)
Definition truthy (v : json) : bool :=
  match v with
  | JNull => false
  | JBool b => b
  | JNum n => negb (n =? 0)
  | JStr s => negb (String.eqb s "")
  | JArr l => match l with [] => false | _ => true end
  | JObj d => match d with [] => false | _ => true end
  end.

(** [v is None] *)
Definition is_None (v : json) : bool :=
  match v with JNull => true | _ => false end.

Fixpoint assoc (k : string) (d : list (string * json)) : option json :=
  match d with
  | [] => None
  | (k', v) :: d' => if String.eqb k k' then Some v else assoc k d'
  end.

(** ** Strings

    A [str] is kept as the string of its code points, which are below 256
    here (a [str] with a character beyond is no value of [string]); a
    [bytes] object is the string of its bytes. *)

(** The lower case of a character: the letters A to Z, and the capital
    letters from 192 to 222 (215, the multiplication sign, is none), are
    32 below their small letters. *)
Definition lower_char (c : ascii) : ascii :=
  let n := nat_of_ascii c in
  if ((Nat.leb 65 n && Nat.leb n 90)
      || (Nat.leb 192 n && Nat.leb n 222 && negb (Nat.eqb n 215)))%bool
  then ascii_of_nat (n + 32) else c.

(** [s.lower()] *)
Fixpoint lower (s : string) : string :=
  match s with
  | EmptyString => EmptyString
  | String c s' => String (lower_char c) (lower s')
  end.
Arguments lower : simpl never.

Fixpoint lstrip (p : ascii -> bool) (s : string) : string :=
  match s with
  | EmptyString => EmptyString
  | String c s' => if p c then lstrip p s' else s
  end.

Fixpoint rev_string (s acc : string) : string :=
  match s with
  | EmptyString => acc
  | String c s' => rev_string s' (String c acc)
  end.

(** [s.strip(chars)] *)
Definition strip_by (p : ascii -> bool) (s : string) : string :=
  rev_string (lstrip p (rev_string (lstrip p s) "")) "".

(** The double quote, code 34. *)
Definition is_quote (c : ascii) : bool := Ascii.eqb c (ascii_of_nat 34).

(** ASCII white space, what [bytes.strip()] removes: the space and the
    codes 9 to 13. *)
Definition is_space (c : ascii) : bool :=
  let n := nat_of_ascii c in
  (Nat.eqb n 32 || (Nat.leb 9 n && Nat.leb n 13))%bool.

(** White space of a [str], where [str.isspace()] holds: among the code
    points below 256, the space, the codes 9 to 13, the separators 28 to
    31, the next-line control 133 and the no-break space 160. *)
Definition is_str_space (c : ascii) : bool :=
  let n := nat_of_ascii c in
  (Nat.eqb n 32 || (Nat.leb 9 n && Nat.leb n 13) || (Nat.leb 28 n && Nat.leb n 31)
   || Nat.eqb n 133 || Nat.eqb n 160)%bool.

(** [s.split()] on a [str]: the maximal runs of characters that are not
    white space. *)
Fixpoint split_ws (s : string) (cur : string) : list string :=
  match s with
  | EmptyString => match cur with EmptyString => [] | _ => [rev_string cur ""] end
  | String c s' =>
      if is_str_space c
      then match cur with
           | EmptyString => split_ws s' ""
           | _ => rev_string cur "" :: split_ws s' ""
           end
      else split_ws s' (String c cur)
  end.

Definition split (s : string) : list string := split_ws s "".

(** Is [p] a substring of [s] ([p in s] on two [str])? *)
Fixpoint is_prefix (p s : string) : bool :=
  match p, s with
  | EmptyString, _ => true
  | String a p', String b s' => Ascii.eqb a b && is_prefix p' s'
  | _, _ => false
  end.

Fixpoint is_substring (p s : string) : bool :=
  is_prefix p s || match s with EmptyString => false | String _ s' => is_substring p s' end.

(** ** Exceptions and results *)

Inductive exn : Type :=
  | RuntimeError (msg : string)
  | ValueError (msg : string)
  | TypeError
  | KeyError (k : string)
  | AttributeError
  | UnboundLocalError
  | BinasciiError
  | DNSException
  | NewConnectionError
  | ConnectionTimeOutError
  | TLSPinningError
  | UnknownConnectionError
  | NetworkError (msg : string)
  | MissingDepedencyError
  | ProtonAPIError (ret : json).

Inductive Res (A : Type) : Type :=
  | Ok (a : A)
  | Raise (e : exn).
Arguments Ok {A} a.
Arguments Raise {A} e.

(** The names the specification gives to the untyped Python errors. *)
Definition policy_msg : string :=
  "Alternative routing has not been configured before making API requests. " ++
  "Please either enable or disable it before making any requests.".
Definition PolicyNotConfigured : exn := RuntimeError policy_msg.
Definition InvalidModulus : exn := ValueError "Invalid modulus".
Definition InvalidChallenge : exn := ValueError "Invalid challenge".
Definition InvalidPassword : exn := ValueError "Invalid password".
Definition InvalidServerProof : exn := ValueError "Invalid server proof".
Definition BadMethod (m : string) : exn := ValueError ("Unknown method: " ++ m).

(** ** HTTP *)

Inductive Verb := GET | POST | PUT | DELETE | PATCH.

(** A [requests.Response].  [body = None] when [response.json()] raises
    [JSONDecodeError]. *)
Record Response := {
  status_code : Z;
  reason : string;
  resp_headers : list (string * json);
  body : option json;
  content : string
}.

(** [bool(response)] is [response.ok] in [requests]: false exactly for the
    statuses [raise_for_status] rejects, 400 to 599. *)
Definition resp_ok (r : Response) : bool :=
  negb ((400 <=? status_code r) && (status_code r <? 600)).

(** Adapters mounted on the [requests.Session]. *)
Inductive Adapter := HTTPAdapter | TLSPinningAdapter (alt_pins : bool).

(** A header dictionary ([CaseInsensitiveDict]): keys are kept lower-cased. *)
Abbreviation Headers := (gmap string json).

Definition hget (k : string) (h : Headers) : option json := h !! lower k.
Definition hset (k : string) (v : json) (h : Headers) : Headers := <[lower k := v]> h.
Definition hdel (k : string) (h : Headers) : Headers := delete (lower k) h.

(** A dictionary of headers given with a call, entered key after key. *)
Definition to_headers (l : list (string * json)) : Headers :=
  foldl (fun h kv => hset kv.1 kv.2 h) ∅ l.

(** [requests.sessions.merge_setting] on headers.  [Request.__init__]
    turns [headers=None] into the empty dictionary; the request's entries
    are written over the session's, and the entries whose value is [None]
    are dropped, those of the session included. *)
Definition merge_headers (session_h : Headers) (request_h : option (list (string * json)))
  : Headers :=
  filter (fun kv : string * json => Is_true (negb (is_None kv.2)))
         (to_headers (default [] request_h) ∪ session_h).

(** What the verb function of the [requests.Session] receives, with the
    session settings it is sent under. *)
Record Request := {
  req_verb : Verb;
  req_url : string;
  req_headers : Headers;
  req_json : json;
  req_timeout : json;
  req_verify : bool;
  req_params : json;
  req_adapters : gmap string Adapter;
  req_proxies : json
}.

(** What calling [fct] on the keyword arguments does: it returns a response or raises.
    [ExcConnectTimeout] is both a [ConnectionError] and a [Timeout]. *)
Inductive fct_outcome :=
  | Returns (r : Response)
  | ExcConnectionError
  | ExcConnectTimeout
  | ExcTimeout
  | ExcTLSPinningError
  | ExcOther.

(** What the bare [requests.get] of a DoH query does. *)
Inductive doh_outcome :=
  | DohReturns (status : Z) (dns_content : string)
  | DohRaises.

Inductive NetEvent :=
  | NetHttp (r : Request)
  | NetDoh (dns_host : string) (dns_encoded_data : string).

(** [gnupg]'s result object for [decrypt]. *)
Record Verified := {
  valid : bool;
  fingerprint : string;
  data : string
}.

(** ** The collaborators of the module *)

Class Externals := {
  (** the network and every other source of outside input *)
  World : Type;
  fct : Request -> World -> fct_outcome * World;
  doh_get : string -> string -> World -> doh_outcome * World;
  (** [MetadataBackend]: the route cache, one per process *)
  Meta : Type;
  try_original_url : bool -> bool -> Meta -> bool * Meta;
  get_alternative_url : Meta -> string;
  store_alternative_route : string -> Meta -> Meta;
  (** [gnupg.GPG().decrypt], after [import_keys(SRP_MODULUS_KEY)] *)
  gpg_decrypt : string -> Verified;
  (** [base64] *)
  b64decode : string -> option string;
  b64encode : string -> string;
  (** [proton.srp.User] *)
  SrpUser : Type;
  PmsrpUser : string -> string -> World -> SrpUser * World;
  get_challenge : SrpUser -> string;
  process_challenge : string -> string -> json -> SrpUser -> option string * SrpUser;
  verify_session : string -> SrpUser -> SrpUser;
  authenticated : SrpUser -> bool;
  (** [dnspython]: is it installed, [make_query] + [to_wire] + urlsafe
      base64, and [from_wire] down to the text of each record of each
      RRset of the answer section *)
  dns_available : bool;
  DnsQuery : Type;
  generate_dns_message : string -> World -> (DnsQuery * string) * World;
  from_wire_answer : DnsQuery -> string -> option (list (list string));
  (** [proton.constants] *)
  DEFAULT_TIMEOUT : json;
  DNS_HOSTS : list string;
  ENCODED_URLS : list string;
  SRP_MODULUS_KEY_FINGERPRINT : string
}.

(** ** The session object *)

(** A cookie of the jar [self.s.cookies]. *)
Record Cookie := {
  cookie_name : string;
  cookie_value : string;
  cookie_domain : string;
  cookie_path : string
}.

Record Session := {
  api_url : string;
  appversion : string;
  user_agent : string;
  clientsecret : json;
  timeout : json;
  tls_pinning_enabled : bool;
  allow_alternative_routes : option bool;
  force_skip_alternative_routing : bool;
  captcha_token : option json;
  session_data : gmap string json;
  (** [self.s], the [requests.Session] *)
  headers : Headers;
  cookies : list Cookie;
  proxies : json;
  adapters : gmap string Adapter
}.

Definition set_allow (v : option bool) (s : Session) : Session :=
  {| api_url := api_url s; appversion := appversion s; user_agent := user_agent s;
     clientsecret := clientsecret s; timeout := timeout s;
     tls_pinning_enabled := tls_pinning_enabled s;
     allow_alternative_routes := v;
     force_skip_alternative_routing := force_skip_alternative_routing s;
     captcha_token := captcha_token s; session_data := session_data s;
     headers := headers s; cookies := cookies s; proxies := proxies s;
     adapters := adapters s |}.

Definition set_force_skip (v : bool) (s : Session) : Session :=
  {| api_url := api_url s; appversion := appversion s; user_agent := user_agent s;
     clientsecret := clientsecret s; timeout := timeout s;
     tls_pinning_enabled := tls_pinning_enabled s;
     allow_alternative_routes := allow_alternative_routes s;
     force_skip_alternative_routing := v;
     captcha_token := captcha_token s; session_data := session_data s;
     headers := headers s; cookies := cookies s; proxies := proxies s;
     adapters := adapters s |}.

Definition set_captcha_token (v : option json) (s : Session) : Session :=
  {| api_url := api_url s; appversion := appversion s; user_agent := user_agent s;
     clientsecret := clientsecret s; timeout := timeout s;
     tls_pinning_enabled := tls_pinning_enabled s;
     allow_alternative_routes := allow_alternative_routes s;
     force_skip_alternative_routing := force_skip_alternative_routing s;
     captcha_token := v; session_data := session_data s;
     headers := headers s; cookies := cookies s; proxies := proxies s;
     adapters := adapters s |}.

Definition set_session_data (v : gmap string json) (s : Session) : Session :=
  {| api_url := api_url s; appversion := appversion s; user_agent := user_agent s;
     clientsecret := clientsecret s; timeout := timeout s;
     tls_pinning_enabled := tls_pinning_enabled s;
     allow_alternative_routes := allow_alternative_routes s;
     force_skip_alternative_routing := force_skip_alternative_routing s;
     captcha_token := captcha_token s; session_data := v;
     headers := headers s; cookies := cookies s; proxies := proxies s;
     adapters := adapters s |}.

Definition set_headers (v : Headers) (s : Session) : Session :=
  {| api_url := api_url s; appversion := appversion s; user_agent := user_agent s;
     clientsecret := clientsecret s; timeout := timeout s;
     tls_pinning_enabled := tls_pinning_enabled s;
     allow_alternative_routes := allow_alternative_routes s;
     force_skip_alternative_routing := force_skip_alternative_routing s;
     captcha_token := captcha_token s; session_data := session_data s;
     headers := v; cookies := cookies s; proxies := proxies s;
     adapters := adapters s |}.

Definition set_cookies (v : list Cookie) (s : Session) : Session :=
  {| api_url := api_url s; appversion := appversion s; user_agent := user_agent s;
     clientsecret := clientsecret s; timeout := timeout s;
     tls_pinning_enabled := tls_pinning_enabled s;
     allow_alternative_routes := allow_alternative_routes s;
     force_skip_alternative_routing := force_skip_alternative_routing s;
     captcha_token := captcha_token s; session_data := session_data s;
     headers := headers s; cookies := v; proxies := proxies s;
     adapters := adapters s |}.

Definition set_adapters (v : gmap string Adapter) (s : Session) : Session :=
  {| api_url := api_url s; appversion := appversion s; user_agent := user_agent s;
     clientsecret := clientsecret s; timeout := timeout s;
     tls_pinning_enabled := tls_pinning_enabled s;
     allow_alternative_routes := allow_alternative_routes s;
     force_skip_alternative_routing := force_skip_alternative_routing s;
     captcha_token := captcha_token s; session_data := session_data s;
     headers := headers s; cookies := cookies s; proxies := proxies s;
     adapters := v |}.

(** The properties [UID], [AccessToken], ...: [self._session_data.get(k, None)]. *)
Definition sd_get (k : string) (s : Session) : json := default JNull (session_data s !! k).
Definition UID := sd_get "UID".
Definition AccessToken := sd_get "AccessToken".
Definition RefreshToken := sd_get "RefreshToken".
Definition PasswordMode := sd_get "PasswordMode".
Definition Scope (s : Session) : json := default (JArr []) (session_data s !! "Scope").

(** ** The machine: a session, the outside world, the route cache and the
    log of the network events performed so far. *)

Section Model.
Context `{Ext : Externals}.

Record State := {
  sess : Session;
  world : World;
  metadata : Meta;
  net_log : list NetEvent
}.

Definition with_sess (s : Session) (st : State) : State :=
  {| sess := s; world := world st; metadata := metadata st; net_log := net_log st |}.
Definition with_world (w : World) (st : State) : State :=
  {| sess := sess st; world := w; metadata := metadata st; net_log := net_log st |}.
Definition with_metadata (m : Meta) (st : State) : State :=
  {| sess := sess st; world := world st; metadata := m; net_log := net_log st |}.
Definition log_event (e : NetEvent) (st : State) : State :=
  {| sess := sess st; world := world st; metadata := metadata st;
     net_log := (net_log st ++ [e])%list |}.

(** Methods: state passing with exceptions. *)
Definition M (A : Type) : Type := State -> Res A * State.

Definition ret {A} (a : A) : M A := fun st => (Ok a, st).
Definition raise {A} (e : exn) : M A := fun st => (Raise e, st).
Definition lift {A} (r : Res A) : M A := fun st => (r, st).
Definition bind {A B} (m : M A) (k : A -> M B) : M B :=
  fun st =>
    match m st with
    | (Ok a, st') => k a st'
    | (Raise e, st') => (Raise e, st')
    end.
Definition get_sess : M Session := fun st => (Ok (sess st), st).
Definition modify_sess (f : Session -> Session) : M unit :=
  fun st => (Ok tt, with_sess (f (sess st)) st).

Notation "'do' x <- m ; k" := (bind m (fun x => k))
  (at level 10, x name, m at level 100, k at level 200).
Notation "m ;;; k" := (bind m (fun _ => k))
  (at level 100, k at level 200, right associativity).

(** Subscription [v[k]] with a string key. *)
Definition subscript (v : json) (k : string) : Res json :=
  match v with
  | JObj d => match assoc k d with Some x => Ok x | None => Raise (KeyError k) end
  | _ => Raise TypeError
  end.

(** *** [__make_request] *)

Record Kwargs := {
  kw_url : string;
  kw_endpoint : string;
  kw_headers : option (list (string * json));
  kw_json : json;
  kw_timeout : json;
  kw_verify : bool;
  kw_params : json
}.

Definition kw_with_url (u : string) (kw : Kwargs) : Kwargs :=
  {| kw_url := u; kw_endpoint := kw_endpoint kw; kw_headers := kw_headers kw;
     kw_json := kw_json kw; kw_timeout := kw_timeout kw; kw_verify := kw_verify kw;
     kw_params := kw_params kw |}.
Definition kw_with_verify (b : bool) (kw : Kwargs) : Kwargs :=
  {| kw_url := kw_url kw; kw_endpoint := kw_endpoint kw; kw_headers := kw_headers kw;
     kw_json := kw_json kw; kw_timeout := kw_timeout kw; kw_verify := b;
     kw_params := kw_params kw |}.

Definition request_of (v : Verb) (kw : Kwargs) (s : Session) : Request :=
  {| req_verb := v;
     req_url := kw_url kw ++ kw_endpoint kw;
     req_headers := merge_headers (headers s) (kw_headers kw);
     req_json := kw_json kw;
     req_timeout := kw_timeout kw;
     req_verify := kw_verify kw;
     req_params := kw_params kw;
     req_adapters := adapters s;
     req_proxies := proxies s |}.

Definition make_request (v : Verb) (kw : Kwargs) : M Response :=
  fun st =>
    let req := request_of v kw (sess st) in
    let '(out, w) := fct req (world st) in
    let st' := log_event (NetHttp req) (with_world w st) in
    match out with
    | Returns r => (Ok r, st')
    | ExcConnectionError | ExcConnectTimeout => (Raise NewConnectionError, st')
    | ExcTimeout => (Raise ConnectionTimeOutError, st')
    | ExcTLSPinningError => (Raise TLSPinningError, st')
    | ExcOther => (Raise UnknownConnectionError, st')
    end.

(** *** DNS over HTTPS *)

Definition query_for_dns_data (dns_host dns_encoded_data : string)
  : State -> option string * State :=
  fun st =>
    let '(out, w) := doh_get dns_host dns_encoded_data (world st) in
    let st' := log_event (NetDoh dns_host dns_encoded_data) (with_world w st) in
    match out with
    | DohReturns status c => (if status =? 404 then None else Some c, st')
    | DohRaises => (None, st')
    end.

(** [executor.map] gives the results in the order of [DNS_HOSTS]; the
    queries are taken one after the other. *)
Fixpoint query_all (hosts : list string) (dns_encoded_data : string) (st : State)
  : list (option string) * State :=
  match hosts with
  | [] => ([], st)
  | h :: hs =>
      let '(r, st1) := query_for_dns_data h dns_encoded_data st in
      let '(rs, st2) := query_all hs dns_encoded_data st1 in
      (r :: rs, st2)
  end.

(** [[dns_url for dns_url in dns_hosts_response if dns_url]] *)
Definition non_empty_responses (l : list (option string)) : list string :=
  omap (fun o => match o with
                 | Some c => if String.eqb c "" then None else Some c
                 | None => None
                 end) l.

Definition routes_of_rrset (route : list string) : gset string :=
  list_to_set (map (strip_by is_quote) route).

Definition extract_dns_answer (query_content : string) (dns_query : DnsQuery)
  : Res (gset string) :=
  match from_wire_answer dns_query query_content with
  | None => Raise DNSException
  | Some answer => Ok (foldl (fun _ route => routes_of_rrset route) ∅ answer)
  end.

(** [for response in dns_hosts_response: routes = extract(response)] *)
Fixpoint extract_each (responses : list string) (dns_query : DnsQuery)
    (routes : gset string) : Res (gset string) :=
  match responses with
  | [] => Ok routes
  | response :: rest =>
      match extract_dns_answer response dns_query with
      | Raise e => Raise e
      | Ok routes' => extract_each rest dns_query routes'
      end
  end.

Fixpoint resolve_names (names : list string) (routes : gset string) : M (gset string) :=
  match names with
  | [] => ret routes
  | encoded_url :: rest => fun st =>
      let '((dns_query, dns_encoded_data), w) :=
        generate_dns_message encoded_url (world st) in
      match DNS_HOSTS with
      | [] => (Raise (ValueError "max_workers must be greater than 0"), with_world w st)
      | _ =>
          let '(rs, st1) := query_all DNS_HOSTS dns_encoded_data (with_world w st) in
          let dns_hosts_response := non_empty_responses rs in
          match dns_hosts_response with
          | [] => resolve_names rest routes st1
          | _ =>
              match extract_each dns_hosts_response dns_query routes with
              | Raise e => (Raise e, st1)
              | Ok routes' =>
                  if Nat.ltb 0 (size routes') then (Ok routes', st1)
                  else resolve_names rest routes' st1
              end
          end
      end
  end.

Definition get_alternative_routes_from_dns : M (gset string) :=
  if dns_available then resolve_names ENCODED_URLS ∅
  else raise MissingDepedencyError.

(** *** [__try_with_alt_routing] *)

Definition mount (prefix : string) (a : Adapter) (st : State) : State :=
  with_sess (set_adapters (<[prefix := a]> (adapters (sess st))) (sess st)) st.

(** The loop over the routes; [None] stands for [response = None]. *)
Fixpoint alt_loop (v : Verb) (kw : Kwargs) (routes : list string) (st : State)
  : option Response * State :=
  match routes with
  | [] => (None, st)
  | route :: rest =>
      let _alt_url := "https://" ++ route in
      let kw' := kw_with_url _alt_url kw in
      let st1 := if tls_pinning_enabled (sess st)
                 then mount _alt_url (TLSPinningAdapter true) st else st in
      match make_request v kw' st1 with
      | (Raise _, st2) => alt_loop v kw' rest st2
      | (Ok response, st2) =>
          (Some response,
           with_metadata (store_alternative_route _alt_url (metadata st2)) st2)
      end
  end.

(** [if not response: raise NetworkError], then [return response]. *)
Definition alt_result (response : option Response) : Res Response :=
  match response with
  | None => Raise (NetworkError "Network error")
  | Some r => if resp_ok r then Ok r else Raise (NetworkError "Network error")
  end.

Definition try_alt_routes (v : Verb) (kw : Kwargs) (routes : list string) : M Response :=
  fun st =>
    let '(response, st') := alt_loop v (kw_with_verify false kw) routes st in
    (alt_result response, st').

Definition try_with_alt_routing (v : Verb) (kw : Kwargs) : M Response :=
  do alternative_routes <- get_alternative_routes_from_dns;
  try_alt_routes v kw (elements alternative_routes).


(** *** [api_request] *)

Definition verb_of_method (method : string) : option Verb :=
  let m := lower method in
  if String.eqb m "get" then Some GET
  else if String.eqb m "post" then Some POST
  else if String.eqb m "put" then Some PUT
  else if String.eqb m "delete" then Some DELETE
  else if String.eqb m "patch" then Some PATCH
  else None.

(** The choice of [fct]; [None] is the [fct is None] of the source. *)
Definition select_fct (method : option string) (jsondata : json) : option Verb :=
  match method with
  | None => if is_None jsondata then Some GET else Some POST
  | Some m => verb_of_method m
  end.

(** What [api_request] returns: the decoded JSON, or the response object
    itself when the body is not JSON. *)
Inductive api_ret :=
  | RetJson (j : json)
  | RetRaw (r : Response).

(** The deleter of [human_verification_token]. *)
Definition del_human_verification_token (s : Session) : Session :=
  set_headers (hdel "X-PM-Human-Verification-Token"
                 (hdel "X-PM-Human-Verification-Token-Type" (headers s))) s.

Definition is_success_code (c : json) : bool :=
  json_eqb c (JNum 1000) || json_eqb c (JNum 1001).

(** The body of the last [try] of [api_request] on a decoded [response]:
    [Ok] when it falls through to [return response]. *)
Definition check_code (response : json) : M unit :=
  do code <- lift (subscript response "Code");
  if is_success_code code then ret tt
  else
    (if json_eqb code (JNum 9001) then
       do details <- lift (subscript response "Details");
       do token <- lift (subscript details "HumanVerificationToken");
       modify_sess (set_captcha_token (Some token))
     else if json_eqb code (JNum 12087) then
       modify_sess del_human_verification_token
     else ret tt) ;;;
    raise (ProtonAPIError response).

(** Lines 263 to 299: from the response object to the returned value. *)
Definition decode_response (response : Response) : M api_ret :=
  let status_code := status_code response in
  match body response with
  | None =>
      (* json_error is set *)
      if negb (status_code =? 200) then
        raise (ProtonAPIError (JObj [("Code", JNum status_code);
                                     ("Error", JStr (reason response));
                                     ("Headers", JObj (resp_headers response))]))
      else
        (* response["Code"] on the response object is a TypeError,
           caught with status_code = 200 *)
        ret (RetRaw response)
  | Some j => fun st =>
      match check_code j st with
      | (Ok _, st') => (Ok (RetJson j), st')
      | (Raise TypeError, st') =>
          if negb (status_code =? 200) then (Raise TypeError, st')
          else (Ok (RetJson j), st')
      | (Raise e, st') => (Raise e, st')
      end
  end.

Definition is_transport_error (e : exn) : bool :=
  match e with
  | NewConnectionError | ConnectionTimeOutError | TLSPinningError => true
  | _ => false
  end.

(** Lines 191 to 261: up to the response object.  [None] is the state in
    which the local variable [response] was never bound.  The probe
    [_is_api_reacheable] is a parameter, the recursion is tied below. *)
Definition fetch_response (is_api_reacheable : M bool)
    (endpoint : string) (jsondata : json)
    (additional_headers : option (list (string * json)))
    (method : option string) (params : json)
    (_skip_alt_routing_for_api_check : bool) : M (option Response) :=
  do s <- get_sess;
  match allow_alternative_routes s with
  | None => raise PolicyNotConfigured
  | Some allow =>
      match select_fct method jsondata with
      | None => raise (BadMethod (default "" method))
      | Some fct => fun st =>
          let '(orig, m) := try_original_url allow (force_skip_alternative_routing s)
                              (metadata st) in
          let st := with_metadata m st in
          let _url := if orig then api_url s else get_alternative_url m in
          let _verify := orig in
          let request_params :=
            {| kw_url := _url; kw_endpoint := endpoint;
               kw_headers := additional_headers; kw_json := jsondata;
               kw_timeout := timeout s; kw_verify := _verify;
               kw_params := params |} in
          match make_request fct request_params st with
          | (Ok response, st1) => (Ok (Some response), st1)
          | (Raise e, st1) =>
              if is_transport_error e then
                if negb allow || _skip_alt_routing_for_api_check
                   || force_skip_alternative_routing s
                then (Raise e, st1)
                else
                  match is_api_reacheable st1 with
                  | (Raise e', st2) => (Raise e', st2)
                  | (Ok true, st2) => (Ok None, st2)
                  | (Ok false, st2) =>
                      match try_with_alt_routing fct request_params st2 with
                      | (Ok response, st3) => (Ok (Some response), st3)
                      | (Raise e', st3) => (Raise e', st3)
                      end
                  end
              else (Raise UnknownConnectionError, st1)
          end
      end
  end.

Definition api_request_with (is_api_reacheable : M bool)
    (endpoint : string) (jsondata : json)
    (additional_headers : option (list (string * json)))
    (method : option string) (params : json)
    (_skip_alt_routing_for_api_check : bool) : M api_ret :=
  do response <- fetch_response is_api_reacheable endpoint jsondata additional_headers
                   method params _skip_alt_routing_for_api_check;
  match response with
  | None => raise UnboundLocalError
  | Some r => decode_response r
  end.

(** The call [self.api_request("/tests/ping", _skip_alt_routing_for_api_check=True)]:
    with the flag set the probe is not consulted again. *)
Definition ping : M api_ret :=
  api_request_with (ret true) "/tests/ping" JNull None None JNull true.

Definition _is_api_reacheable : M bool :=
  fun st =>
    match ping st with
    | (Ok _, st') => (Ok true, st')
    | (Raise e, st') =>
        if is_transport_error e then (Ok false, st') else (Raise e, st')
    end.

Definition api_request (endpoint : string) (jsondata : json)
    (additional_headers : option (list (string * json)))
    (method : option string) (params : json)
    (_skip_alt_routing_for_api_check : bool) : M api_ret :=
  api_request_with _is_api_reacheable endpoint jsondata additional_headers method
    params _skip_alt_routing_for_api_check.

(** *** [verify_modulus] *)

(** [base64.b64decode(b)]; it raises [binascii.Error] on what it cannot decode. *)
Definition b64decode_bytes (b : string) : Res string :=
  match b64decode b with
  | Some x => Ok x
  | None => Raise BinasciiError
  end.

Definition verify_modulus (armored_modulus : string) : Res string :=
  let verified := gpg_decrypt armored_modulus in
  if negb (valid verified
           && String.eqb (lower (fingerprint verified)) SRP_MODULUS_KEY_FINGERPRINT)
  then Raise InvalidModulus
  else b64decode_bytes (strip_by is_space (data verified)).

(** *** [logout], [refresh], [provide_2fa] *)

(** [del self.s.headers[k]] *)
Definition del_header (k : string) : M unit :=
  do s <- get_sess;
  match hget k (headers s) with
  | None => raise (KeyError (lower k))
  | Some _ => modify_sess (set_headers (hdel k (headers s)))
  end.

Definition set_header (k : string) (v : json) : M unit :=
  modify_sess (fun s => set_headers (hset k v (headers s)) s).

Definition sd_set (k : string) (v : json) : M unit :=
  modify_sess (fun s => set_session_data (<[k := v]> (session_data s)) s).

(** [bool(self._session_data)] *)
Definition has_session_data (s : Session) : bool :=
  negb (Nat.eqb (size (session_data s)) 0).

Definition logout : M unit :=
  do s <- get_sess;
  if has_session_data s then
    api_request "/auth" JNull None (Some "DELETE") JNull false ;;;
    del_header "Authorization" ;;;
    del_header "x-pm-uid" ;;;
    modify_sess (set_session_data ∅)
  else ret tt.

(** [r[k]] on what [api_request] returned; a response object cannot be
    subscripted. *)
Definition api_subscript (r : api_ret) (k : string) : Res json :=
  match r with
  | RetJson j => subscript j k
  | RetRaw _ => Raise TypeError
  end.

(** ["Bearer " + v] *)
Definition bearer (v : json) : Res json :=
  match v with
  | JStr t => Ok (JStr ("Bearer " ++ t))
  | _ => Raise TypeError
  end.

(** The body [refresh] posts. *)
Definition refresh_payload (s : Session) : json :=
  JObj [("ResponseType", JStr "token");
        ("GrantType", JStr "refresh_token");
        ("RefreshToken", RefreshToken s);
        ("RedirectURI", JStr "http://protonmail.ch")].

Definition refresh : M unit :=
  do s <- get_sess;
  do refresh_response <-
    api_request "/auth/refresh" (refresh_payload s) None None JNull false;
  do a <- lift (api_subscript refresh_response "AccessToken");
  sd_set "AccessToken" a ;;;
  do r <- lift (api_subscript refresh_response "RefreshToken");
  sd_set "RefreshToken" r ;;;
  do s' <- get_sess;
  do b <- lift (bearer (AccessToken s'));
  set_header "Authorization" b.

Definition provide_2fa (code : json) : M json :=
  do r <- api_request "/auth/2fa" (JObj [("TwoFactorCode", code)]) None None JNull false;
  do sc <- lift (api_subscript r "Scope");
  sd_set "Scope" sc ;;;
  do s <- get_sess;
  ret (Scope s).

(** *** [authenticate] *)

(** [k in r] on what [api_request] returned.  Iterating a response object
    yields chunks of bytes, none of which equals a [str]. *)
Definition api_contains (k : string) (r : api_ret) : Res bool :=
  match r with
  | RetRaw _ => Ok false
  | RetJson (JObj d) => Ok (match assoc k d with Some _ => true | None => false end)
  | RetJson (JArr l) => Ok (existsb (json_eqb (JStr k)) l)
  | RetJson (JStr t) => Ok (is_substring k t)
  | RetJson _ => Raise TypeError
  end.

(** [base64.b64decode(v)] on a Python value *)
Definition b64decode_json (v : json) : Res string :=
  match v with
  | JStr t => b64decode_bytes t
  | _ => Raise TypeError
  end.

Definition with_client_secret (s : Session) (payload : list (string * json))
  : list (string * json) :=
  if truthy (clientsecret s) then (payload ++ [("ClientSecret", clientsecret s)])%list
  else payload.

(** Lines 383 to 413: [/auth/info], the SRP computation and the [/auth]
    request. *)
Definition authenticate_srp (username password : string) : M (SrpUser * api_ret) :=
  do s <- get_sess;
  do info_response <-
    api_request "/auth/info" (JObj (with_client_secret s [("Username", JStr username)]))
      None None JNull false;
  do armored <- lift (api_subscript info_response "Modulus");
  do modulus <- lift (match armored with
                      | JStr a => verify_modulus a
                      | _ => Raise TypeError
                      end);
  do server_ephemeral <- lift (api_subscript info_response "ServerEphemeral");
  do server_challenge <- lift (b64decode_json server_ephemeral);
  do salt64 <- lift (api_subscript info_response "Salt");
  do salt <- lift (b64decode_json salt64);
  do version <- lift (api_subscript info_response "Version");
  do usr <- (fun st => let '(u, w) := PmsrpUser password modulus (world st) in
                       (Ok u, with_world w st));
  let client_challenge := get_challenge usr in
  let '(client_proof, usr) := process_challenge salt server_challenge version usr in
  match client_proof with
  | None => raise InvalidChallenge
  | Some client_proof =>
      do srp_session <- lift (api_subscript info_response "SRPSession");
      do auth_response <-
        api_request "/auth"
          (JObj (with_client_secret s
                   [("Username", JStr username);
                    ("ClientEphemeral", JStr (b64encode client_challenge));
                    ("ClientProof", JStr (b64encode client_proof));
                    ("SRPSession", srp_session)]))
          None None JNull false;
      ret (usr, auth_response)
  end.

(** Lines 381 to 413: the log-out, then the exchange up to the [/auth]
    response. *)
Definition authenticate_exchange (username password : string) : M (SrpUser * api_ret) :=
  logout ;;; authenticate_srp username password.

(** [auth_response["Scope"].split()] *)
Definition split_scope (v : json) : Res json :=
  match v with
  | JStr t => Ok (JArr (map JStr (split t)))
  | _ => Raise AttributeError
  end.

(** Lines 415 to 434: from the [/auth] response to the stored credentials. *)
Definition authenticate_finish (x : SrpUser * api_ret) : M json :=
  let '(usr, auth_response) := x in
  do has_proof <- lift (api_contains "ServerProof" auth_response);
  if negb has_proof then raise InvalidPassword
  else
    do proof64 <- lift (api_subscript auth_response "ServerProof");
    do proof <- lift (b64decode_json proof64);
    let usr := verify_session proof usr in
    if negb (authenticated usr) then raise InvalidServerProof
    else
      do uid <- lift (api_subscript auth_response "UID");
      do access <- lift (api_subscript auth_response "AccessToken");
      do refresh_token <- lift (api_subscript auth_response "RefreshToken");
      do mode <- lift (api_subscript auth_response "PasswordMode");
      do scope <- lift (api_subscript auth_response "Scope");
      do scope_list <- lift (split_scope scope);
      modify_sess (set_session_data
                     (<["UID" := uid]> (<["AccessToken" := access]>
                      (<["RefreshToken" := refresh_token]> (<["PasswordMode" := mode]>
                       (<["Scope" := scope_list]> ∅)))))) ;;;
      do s <- get_sess;
      (if negb (is_None (UID s)) then
         set_header "x-pm-uid" (UID s) ;;;
         do b <- lift (bearer (AccessToken s));
         set_header "Authorization" b
       else ret tt) ;;;
      do s' <- get_sess;
      ret (Scope s').

Definition authenticate (username password : string) : M json :=
  do x <- authenticate_exchange username password;
  authenticate_finish x.

(** *** The properties with a setter *)

Definition opt_bool_eqb (o : option bool) (b : bool) : bool :=
  match o with Some b' => Bool.eqb b' b | None => false end.

(** The setter of [enable_alternative_routing]. *)
Definition set_enable_alternative_routing (newvalue : json) (s : Session) : Session :=
  if negb (opt_bool_eqb (allow_alternative_routes s) (truthy newvalue))
  then set_allow (Some (truthy newvalue)) s
  else s.

(** The setter of [force_skip_alternative_routing]. *)
Definition set_force_skip_alternative_routing (newvalue : json) (s : Session) : Session :=
  set_force_skip (truthy newvalue) s.

(** The getter and the setter of [human_verification_token]. *)
Definition human_verification_token (s : Session) : json * json :=
  (default JNull (hget "X-PM-Human-Verification-Token-Type" (headers s)),
   default JNull (hget "X-PM-Human-Verification-Token" (headers s))).

Definition set_human_verification_token (newtuplevalue : json * json) (s : Session)
  : Session :=
  set_headers (hset "X-PM-Human-Verification-Token" newtuplevalue.2
                 (hset "X-PM-Human-Verification-Token-Type" newtuplevalue.1 (headers s))) s.

(** *** [__init__], [dump], [load] *)

(** The headers and adapters of a fresh [requests.Session]. *)
Definition default_headers : Headers :=
  hset "User-Agent" (JStr "python-requests")
    (hset "Accept-Encoding" (JStr "gzip, deflate")
       (hset "Accept" (JStr "*/*") (hset "Connection" (JStr "keep-alive") ∅))).

Definition default_adapters : gmap string Adapter :=
  <["https://" := HTTPAdapter]> (<["http://" := HTTPAdapter]> ∅).

(** The headers of the session when [__init__] returns. *)
Definition init_headers (appversion user_agent : string) : Headers :=
  hset "User-Agent" (JStr user_agent)
    (hset "x-pm-appversion" (JStr appversion) default_headers).

Definition init (api_url log_dir_path cache_dir_path appversion user_agent : string)
    (tls_pinning : bool) (ClientSecret timeout proxies : json) : Res Session :=
  if truthy proxies && tls_pinning
  then Raise (RuntimeError "Not allowed to add proxies while TLS Pinning is enabled")
  else Ok
    {| api_url := api_url;
       appversion := appversion;
       user_agent := user_agent;
       clientsecret := ClientSecret;
       timeout := timeout;
       tls_pinning_enabled := tls_pinning;
       allow_alternative_routes := None;
       force_skip_alternative_routing := false;
       captcha_token := None;
       session_data := ∅;
       headers := init_headers appversion user_agent;
       cookies := [];
       proxies := proxies;
       adapters := if tls_pinning
                   then <[api_url := TLSPinningAdapter false]> default_adapters
                   else default_adapters |}.

(** The dictionary [dump()] returns and [load()] reads; [load] reads
    ["cookies"] with [get], the other keys by subscription.  The record
    holds the dictionaries that have these other keys, with a dictionary
    under ["session_data"]: on a dictionary without one of them [load]
    raises [KeyError] at lines 76 to 78 or 91, and on session data that
    are no dictionary [AttributeError] at line 92; these are not values
    of [Dump]. *)
Record Dump := {
  dump_api_url : string;
  dump_appversion : string;
  dump_user_agent : string;
  dump_cookies : option (gmap string string);
  dump_session_data : gmap string json
}.

(** [RequestsCookieJar.get_dict()]: name to value, a later cookie of the
    same name replaces an earlier one. *)
Definition get_dict (jar : list Cookie) : gmap string string :=
  foldl (fun d c => <[cookie_name c := cookie_value c]> d) ∅ jar.

Definition same_cookie (a b : Cookie) : bool :=
  String.eqb (cookie_name a) (cookie_name b)
  && String.eqb (cookie_domain a) (cookie_domain b)
  && String.eqb (cookie_path a) (cookie_path b).

(** [value.replace] of the backslash-quote pair by nothing: every
    backslash (code 92) followed by a double quote is removed, from left
    to right. *)
Fixpoint remove_escaped_quotes (v : string) : string :=
  match v with
  | String a (String b v'' as v') =>
      if Ascii.eqb a (ascii_of_nat 92) && is_quote b
      then remove_escaped_quotes v''
      else String a (remove_escaped_quotes v')
  | _ => v
  end.

Definition starts_with_quote (v : string) : bool :=
  match v with String c _ => is_quote c | EmptyString => false end.

Definition ends_with_quote (v : string) : bool :=
  starts_with_quote (rev_string v "").

(** The value [RequestsCookieJar.set_cookie] stores: a value that starts
    and ends with a double quote loses its escaped quotes. *)
Definition stored_value (v : string) : string :=
  if starts_with_quote v && ends_with_quote v then remove_escaped_quotes v else v.

(** [jar.set_cookie(c)] of a [RequestsCookieJar] *)
Definition set_cookie (c : Cookie) (jar : list Cookie) : list Cookie :=
  let c := {| cookie_name := cookie_name c; cookie_value := stored_value (cookie_value c);
              cookie_domain := cookie_domain c; cookie_path := cookie_path c |} in
  (List.filter (fun c' => negb (same_cookie c c')) jar ++ [c])%list.

(** [requests.utils.add_dict_to_cookiejar(jar, cookie_dict)] *)
Definition add_dict_to_cookiejar (jar : list Cookie) (cookie_dict : gmap string string)
  : list Cookie :=
  foldl (fun j kv => set_cookie {| cookie_name := kv.1; cookie_value := kv.2;
                                   cookie_domain := ""; cookie_path := "/" |} j)
        jar (map_to_list cookie_dict).

Definition dump (s : Session) : Dump :=
  {| dump_api_url := api_url s;
     dump_appversion := appversion s;
     dump_user_agent := user_agent s;
     dump_cookies := Some (get_dict (cookies s));
     dump_session_data := session_data s |}.

Definition load (dump : Dump) (log_dir_path cache_dir_path : string)
    (tls_pinning : bool) (timeout proxies : json) : Res Session :=
  let cookies0 := default ∅ (dump_cookies dump) in
  match init (dump_api_url dump) log_dir_path cache_dir_path (dump_appversion dump)
          (dump_user_agent dump) tls_pinning JNull timeout proxies with
  | Raise e => Raise e
  | Ok s =>
      let s := set_cookies (add_dict_to_cookiejar (cookies s) cookies0) s in
      let s := set_session_data (dump_session_data dump) s in
      if negb (is_None (UID s)) then
        let s := set_headers (hset "x-pm-uid" (UID s) (headers s)) s in
        match bearer (AccessToken s) with
        | Raise e => Raise e
        | Ok b => Ok (set_headers (hset "Authorization" b (headers s)) s)
        end
      else Ok s
  end.

(** The arguments of one call of [api_request], and calls in sequence. *)
Record ApiArgs := {
  a_endpoint : string;
  a_jsondata : json;
  a_additional_headers : option (list (string * json));
  a_method : option string;
  a_params : json;
  a_skip_alt_routing_for_api_check : bool
}.

Definition call_api_request (a : ApiArgs) : M api_ret :=
  api_request (a_endpoint a) (a_jsondata a) (a_additional_headers a) (a_method a)
    (a_params a) (a_skip_alt_routing_for_api_check a).


(** The request [logout] sends. *)
Definition logout_request : M api_ret :=
  api_request "/auth" JNull None (Some "DELETE") JNull false.

End Model.

Notation "'do' x <- m ; k" := (bind m (fun x => k))
  (at level 10, x name, m at level 100, k at level 200).
Notation "m ;;; k" := (bind m (fun _ => k))
  (at level 100, k at level 200, right associativity).

(** ** A scripted instance, to run the methods on concrete inputs

    The world is the list of outcomes the transport still has to play and
    the list of DoH bodies; an exhausted script refuses the connection. *)

Module Mock.

Record mworld := {
  script : list fct_outcome;
  doh_script : list doh_outcome
}.

Definition m_fct (_ : Request) (w : mworld) : fct_outcome * mworld :=
  match script w with
  | [] => (ExcConnectionError, w)
  | o :: rest => (o, {| script := rest; doh_script := doh_script w |})
  end.

Definition m_doh_get (_ _ : string) (w : mworld) : doh_outcome * mworld :=
  match doh_script w with
  | [] => (DohRaises, w)
  | o :: rest => (o, {| script := script w; doh_script := rest |})
  end.

(** A route cache without expiry: the stored alternative, if any. *)
Definition m_try_original_url (allow force_skip : bool) (m : option string)
  : bool * option string :=
  (force_skip || negb allow || match m with None => true | Some _ => false end, m).

(** A DNS body is read as the records of one RRset separated by blanks;
    the body ["-"] is an answer section without records. *)
Definition m_from_wire_answer (_ : unit) (c : string) : option (list (list string)) :=
  if String.eqb c "-" then Some [] else Some [split c].

(** A signature check that accepts the blobs starting with ["signed:"]. *)
Definition m_gpg_decrypt (a : string) : Verified :=
  if is_prefix "signed:" a
  then {| valid := true; fingerprint := "248097092B458509C508DAC0350585C4E9518F26";
          data := String.substring 7 (String.length a - 7) a |}
  else {| valid := false; fingerprint := ""; data := "" |}.

#[export] Instance ext : Externals := {|
  World := mworld;
  fct := m_fct;
  doh_get := m_doh_get;
  Meta := option string;
  try_original_url := m_try_original_url;
  get_alternative_url := default "";
  store_alternative_route := fun u _ => Some u;
  gpg_decrypt := m_gpg_decrypt;
  b64decode := fun s => Some s;
  b64encode := fun s => s;
  SrpUser := bool;
  PmsrpUser := fun _ _ w => (false, w);
  get_challenge := fun _ => "A";
  process_challenge := fun _ _ _ u => (Some "M1", u);
  verify_session := fun proof _ => String.eqb proof "M2";
  authenticated := fun u => u;
  dns_available := true;
  DnsQuery := unit;
  generate_dns_message := fun name w => ((tt, name), w);
  from_wire_answer := m_from_wire_answer;
  DEFAULT_TIMEOUT := JNum 10;
  DNS_HOSTS := ["https://dns11.quad9.net/dns-query"; "https://dns.google/dns-query"];
  ENCODED_URLS := ["dMFYGSLTQOJXXI33OOZYG4LTDNA.protonpro.xyz";
                   "dMFYGSLTQOJXXI33ONVQWS3BOMNUA.protonpro.xyz"];
  SRP_MODULUS_KEY_FINGERPRINT := "248097092b458509c508dac0350585c4e9518f26"
|}.

Definition resp (status : Z) (b : option json) : Response :=
  {| status_code := status; reason := "reason"; resp_headers := []; body := b;
     content := "" |}.

(** [Session("https://api.protonvpn.ch", ...)] with the defaults of
    [__init__], and the policy chosen or not. *)
Definition session0 (allow : option bool) : Session :=
  match init "https://api.protonvpn.ch" "log" "cache" "Other" "None" true JNull
          DEFAULT_TIMEOUT JNull with
  | Ok s => set_allow allow s
  | Raise _ =>
      {| api_url := ""; appversion := ""; user_agent := ""; clientsecret := JNull;
         timeout := JNull; tls_pinning_enabled := false;
         allow_alternative_routes := None; force_skip_alternative_routing := false;
         captcha_token := None; session_data := ∅; headers := ∅; cookies := [];
         proxies := JNull; adapters := ∅ |}
  end.

Definition state0 (s : Session) (sc : list fct_outcome) (dsc : list doh_outcome) : State :=
  {| sess := s; world := {| script := sc; doh_script := dsc |}; metadata := None;
     net_log := [] |}.

End Mock.

(** The same collaborators with a decoder that rejects, as
    [base64.b64decode] does with [binascii.Error], a text whose number of
    characters is one more than a multiple of four. *)
Module Strict.

Definition s_b64decode (s : string) : option string :=
  if Nat.eqb (String.length s mod 4) 1 then None else Some s.

Definition ext : Externals := {|
  World := Mock.mworld;
  fct := Mock.m_fct;
  doh_get := Mock.m_doh_get;
  Meta := option string;
  try_original_url := Mock.m_try_original_url;
  get_alternative_url := default "";
  store_alternative_route := fun u _ => Some u;
  gpg_decrypt := Mock.m_gpg_decrypt;
  b64decode := s_b64decode;
  b64encode := fun s => s;
  SrpUser := bool;
  PmsrpUser := fun _ _ w => (false, w);
  get_challenge := fun _ => "A";
  process_challenge := fun _ _ _ u => (Some "M1", u);
  verify_session := fun proof _ => String.eqb proof "M2";
  authenticated := fun u => u;
  dns_available := true;
  DnsQuery := unit;
  generate_dns_message := fun name w => ((tt, name), w);
  from_wire_answer := Mock.m_from_wire_answer;
  DEFAULT_TIMEOUT := JNum 10;
  DNS_HOSTS := ["https://dns11.quad9.net/dns-query"; "https://dns.google/dns-query"];
  ENCODED_URLS := ["dMFYGSLTQOJXXI33OOZYG4LTDNA.protonpro.xyz";
                   "dMFYGSLTQOJXXI33ONVQWS3BOMNUA.protonpro.xyz"];
  SRP_MODULUS_KEY_FINGERPRINT := "248097092b458509c508dac0350585c4e9518f26"
|}.

End Strict.

(** The error of line 276, raised for a body that is not JSON. *)
Definition non_json_error (r : Response) : exn :=
  ProtonAPIError (JObj [("Code", JNum (status_code r));
                        ("Error", JStr (reason r));
                        ("Headers", JObj (resp_headers r))]).

(** ** Concrete runs *)

Module Runs.

(** [s] between two double quotes, as the text of a TXT record. *)
Definition quoted (s : string) : string :=
  String (ascii_of_nat 34) (s ++ String (ascii_of_nat 34) "").

(** The first provider answers the first name with one TXT record, the
    second with an empty answer section; nobody answers the second name. *)
Definition doh_state : State :=
  Mock.state0 (Mock.session0 (Some true)) []
    [DohReturns 200 (quoted "alt1.example"); DohReturns 200 "-"].

Definition request_params : Kwargs :=
  {| kw_url := "https://api.protonvpn.ch"; kw_endpoint := "/vpn/logicals";
     kw_headers := None; kw_json := JNull; kw_timeout := JNum 10; kw_verify := true;
     kw_params := JNull |}.

(** The first alternative host answers 404, the second would answer 200. *)
Definition alt_state : State :=
  Mock.state0 (Mock.session0 (Some true))
    [Returns (Mock.resp 404 None); Returns (Mock.resp 200 None)] [].

(** The primary host and the probe refuse the connection, DoH gives one
    route, and that host answers 422 with an application error. *)
Definition alt_state_full : State :=
  Mock.state0 (Mock.session0 (Some true))
    [ExcConnectionError; ExcConnectionError;
     Returns (Mock.resp 422 (Some (JObj [("Code", JNum 8002)])))]
    [DohReturns 200 (quoted "alt1.example")].

(** A session with credentials, as [load] rebuilds it from a dump. *)
Definition dump1 : Dump :=
  {| dump_api_url := "https://api.protonvpn.ch";
     dump_appversion := "Other";
     dump_user_agent := "None";
     dump_cookies := Some {["Session-Id" := "c0"]};
     dump_session_data :=
       <["UID" := JStr "u1"]> (<["AccessToken" := JStr "a1"]>
       (<["RefreshToken" := JStr "r1"]> (<["PasswordMode" := JNum 1]>
       (<["Scope" := JArr [JStr "mail"; JStr "vpn"]]> ∅)))) |}.

Definition session1 (allow : option bool) : Session :=
  match load dump1 "log" "cache" true (JNum 10) JNull with
  | Ok s => set_allow allow s
  | Raise _ => Mock.session0 allow
  end.



(** A session with credentials authenticates again; the server accepts the
    log-out, answers [/auth/info], and answers [/auth] without a
    [ServerProof]. *)
Definition info_response : json :=
  JObj [("Code", JNum 1000); ("Modulus", JStr "signed:W0RFTU9d");
        ("ServerEphemeral", JStr "Qg=="); ("Salt", JStr "c2FsdA==");
        ("Version", JNum 4); ("SRPSession", JStr "sess")].









(** The primary host and the probe refuse the connection, DoH gives one
    route, and that host answers 503 with a body that is not JSON. *)
Definition alt_non_json_state : State :=
  Mock.state0 (Mock.session0 (Some true))
    [ExcConnectionError; ExcConnectionError; Returns (Mock.resp 503 None)]
    [DohReturns 200 (quoted "alt1.example")].

(** The primary host gives that answer itself. *)
Definition primary_non_json_state : State :=
  Mock.state0 (Mock.session0 (Some true)) [Returns (Mock.resp 503 None)] [].

End Runs.

(** ** What a request leaves untouched

    [frame s s']: [s'] is [s] up to the adapters, the captcha token and
    the two headers of the human-verification token, the only attributes
    [api_request] writes. *)

Definition hv_type_key : string := lower "X-PM-Human-Verification-Token-Type".
Definition hv_key : string := lower "X-PM-Human-Verification-Token".

Record frame (s s' : Session) : Prop := {
  fr_api_url : api_url s' = api_url s;
  fr_appversion : appversion s' = appversion s;
  fr_user_agent : user_agent s' = user_agent s;
  fr_clientsecret : clientsecret s' = clientsecret s;
  fr_timeout : timeout s' = timeout s;
  fr_tls : tls_pinning_enabled s' = tls_pinning_enabled s;
  fr_allow : allow_alternative_routes s' = allow_alternative_routes s;
  fr_force_skip : force_skip_alternative_routing s' = force_skip_alternative_routing s;
  fr_session_data : session_data s' = session_data s;
  fr_cookies : cookies s' = cookies s;
  fr_proxies : proxies s' = proxies s;
  fr_headers : forall k, k <> hv_type_key -> k <> hv_key -> headers s' !! k = headers s !! k
}.

(** The request of a logged event was sent with the headers of a session
    in the frame of [s], merged with [kh] or with nothing. *)
Definition sent_under (s : Session) (kh : option (list (string * json))) (e : NetEvent)
  : Prop :=
  match e with
  | NetHttp req =>
      exists s1, frame s s1
        /\ (req_headers req = merge_headers (headers s1) kh
            \/ req_headers req = merge_headers (headers s1) None)
  | NetDoh _ _ => True
  end.




Section Extends.
Context `{Ext : Externals}.

(** [extends kh st st']: the session is framed and the log has only grown,
    by events sent under it. *)
Definition extends (kh : option (list (string * json))) (st st' : State) : Prop :=
  frame (sess st) (sess st')
  /\ exists new, net_log st' = (net_log st ++ new)%list
       /\ Forall (sent_under (sess st) kh) new.

Definition keeps {A} (kh : option (list (string * json))) (m : M A) : Prop :=
  forall st r st', m st = (r, st') -> extends kh st st'.

(** The error is none of the [RuntimeError]s. *)
Definition not_runtime (e : exn) : Prop :=
  match e with RuntimeError _ => False | _ => True end.

End Extends.

(** ** The public interface of a session, as a sequence of calls *)

Inductive Call :=
  | CallApiRequest (a : ApiArgs)
  | CallAuthenticate (username password : string)
  | CallProvide2fa (code : json)
  | CallLogout
  | CallRefresh
  | CallGetAlternativeRoutesFromDns
  | CallSetEnableAlternativeRouting (newvalue : json)
  | CallSetForceSkipAlternativeRouting (newvalue : json)
  | CallSetHumanVerificationToken (newtuplevalue : json * json)
  | CallDelHumanVerificationToken.

Section Calls.
Context `{Ext : Externals}.

(** The state a call leaves, whether it returns or raises. *)
Definition run_call (c : Call) (st : State) : State :=
  match c with
  | CallApiRequest a => snd (call_api_request a st)
  | CallAuthenticate username password => snd (authenticate username password st)
  | CallProvide2fa code => snd (provide_2fa code st)
  | CallLogout => snd (logout st)
  | CallRefresh => snd (refresh st)
  | CallGetAlternativeRoutesFromDns => snd (get_alternative_routes_from_dns st)
  | CallSetEnableAlternativeRouting v =>
      with_sess (set_enable_alternative_routing v (sess st)) st
  | CallSetForceSkipAlternativeRouting v =>
      with_sess (set_force_skip_alternative_routing v (sess st)) st
  | CallSetHumanVerificationToken tv =>
      with_sess (set_human_verification_token tv (sess st)) st
  | CallDelHumanVerificationToken =>
      with_sess (del_human_verification_token (sess st)) st
  end.

Definition run_calls (calls : list Call) (st : State) : State :=
  foldl (fun st c => run_call c st) st calls.

(** A method that leaves the policy attribute alone. *)
Definition keeps_allow {A} (m : M A) : Prop :=
  forall st r st', m st = (r, st') ->
    allow_alternative_routes (sess st') = allow_alternative_routes (sess st).

(** A method that, on a session whose policy is set, raises no
    [RuntimeError]. *)
Definition no_policy_error {A} (m : M A) : Prop :=
  forall st e st', allow_alternative_routes (sess st) <> None ->
    m st = (Raise e, st') -> not_runtime e.

End Calls.

(** ** Sessions whose headers agree with their credentials

    The headers a session is expected to have: those of [__init__], and
    the two authentication headers when a UID is stored. *)

Definition expected_headers (s : Session) : Headers :=
  let h := init_headers (appversion s) (user_agent s) in
  if is_None (UID s) then h
  else match AccessToken s with
       | JStr t => hset "Authorization" (JStr ("Bearer " ++ t)) (hset "x-pm-uid" (UID s) h)
       | _ => h
       end.

(** The invariant of the data model: with a UID comes an access token, and
    the headers are the expected ones (the headers of the
    human-verification token left aside).  [__init__], [load], a
    successful [authenticate] and [logout] establish it. *)
Definition session_wf (s : Session) : Prop :=
  (is_None (UID s) = false -> exists t, AccessToken s = JStr t)
  /\ forall k, k <> hv_type_key -> k <> hv_key -> headers s !! k = expected_headers s !! k.


(** ** The sessions the interface makes

    A call keeps the credentials and their headers in step unless it is
    an [authenticate] that ends in a [TypeError] (the access token of the
    [/auth] response is no string: the credentials and [x-pm-uid] are
    stored, [Authorization] is not), or a [refresh] that raises or that
    runs on a session without UID (lines 474 to 479 write the tokens and
    the header one after the other, and write the header even when no
    UID is stored). *)

Section Made.
Context `{Ext : Externals}.



End Made.

(** ** The first request of a call *)

Section Requests.
Context `{Ext : Externals}.

(** Lines 216 to 224: the answer of the route cache for a call. *)
Definition url_choice (allow : bool) (st : State) : bool * Meta :=
  try_original_url allow (force_skip_alternative_routing (sess st)) (metadata st).

(** Lines 226 to 234: [request_params]. *)
Definition request_params_of (allow : bool) (endpoint : string) (jsondata : json)
    (additional_headers : option (list (string * json))) (params : json) (st : State)
  : Kwargs :=
  let '(orig, m) := url_choice allow st in
  {| kw_url := if orig then api_url (sess st) else get_alternative_url m;
     kw_endpoint := endpoint;
     kw_headers := additional_headers; kw_json := jsondata;
     kw_timeout := timeout (sess st); kw_verify := orig;
     kw_params := params |}.

(** The request line 240 sends. *)
Definition first_request (allow : bool) (v : Verb) (endpoint : string) (jsondata : json)
    (additional_headers : option (list (string * json))) (params : json) (st : State)
  : Request :=
  request_of v (request_params_of allow endpoint jsondata additional_headers params st)
    (sess st).

(** The outcome of the transport on that request. *)
Definition first_outcome (allow : bool) (v : Verb) (endpoint : string) (jsondata : json)
    (additional_headers : option (list (string * json))) (params : json) (st : State)
  : fct_outcome :=
  fst (fct (first_request allow v endpoint jsondata additional_headers params st)
         (world st)).

(** The exception [__make_request] and [api_request] turn an exception of
    the transport into. *)
Definition mapped_error (out : fct_outcome) : option exn :=
  match out with
  | Returns _ => None
  | ExcConnectionError | ExcConnectTimeout => Some NewConnectionError
  | ExcTimeout => Some ConnectionTimeOutError
  | ExcTLSPinningError => Some TLSPinningError
  | ExcOther => Some UnknownConnectionError
  end.

(** Does the call go on to the probe of line 259? *)
Definition falls_back (allow skip force_skip : bool) (out : fct_outcome) : bool :=
  match out with
  | Returns _ | ExcOther => false
  | _ => allow && negb skip && negb force_skip
  end.

(** The state right after the first request. *)
Definition after_first_request (allow : bool) (v : Verb) (endpoint : string)
    (jsondata : json) (additional_headers : option (list (string * json)))
    (params : json) (st : State) : State :=
  let req := first_request allow v endpoint jsondata additional_headers params st in
  log_event (NetHttp req)
    (with_world (snd (fct req (world st))) (with_metadata (snd (url_choice allow st)) st)).

End Requests.

(** ** More concrete runs *)

Module Cases.

Definition ok_body : json := JObj [("Code", JNum 1000)].

(** The server answers 200 with a success code; alternative routing is
    disabled. *)
Definition plain_state : State :=
  Mock.state0 (Mock.session0 (Some false)) [Returns (Mock.resp 200 (Some ok_body))] [].

(** The connection is refused and alternative routing is disabled. *)
Definition refused_state : State :=
  Mock.state0 (Mock.session0 (Some false)) [ExcConnectionError] [].

(** Alternative routing is enabled, the first request is refused and the
    probe gets an answer. *)
Definition flaky_state : State :=
  Mock.state0 (Mock.session0 (Some true))
    [ExcConnectionError; Returns (Mock.resp 200 (Some ok_body))] [].






End Cases.

(** The first and the last character of [s], if any, are no double quotes. *)
Definition unquoted_ends (s : string) : Prop :=
  match s with EmptyString => True | String c _ => is_quote c = false end
  /\ match rev_string s "" with EmptyString => True | String c _ => is_quote c = false end.

(** Is the event a DoH query? *)
Definition is_doh (e : NetEvent) : Prop :=
  match e with NetDoh _ _ => True | NetHttp _ => False end.

(** ** Concrete runs of the retry *)

Module Routes.

(** DoH gives one route and that host answers 200. *)
Definition found_state : State :=
  Mock.state0 (Mock.session0 (Some true))
    [Returns (Mock.resp 200 (Some Cases.ok_body))]
    [DohReturns 200 (Runs.quoted "alt1.example")].

(** No DoH provider answers. *)
Definition silent_state : State :=
  Mock.state0 (Mock.session0 (Some true)) [Returns (Mock.resp 200 (Some Cases.ok_body))] [].

End Routes.

(** ** Concrete runs of the session manager *)

Module Manager.

(** [/auth/2fa] answers with a scope. *)
Definition twofa_state : State :=
  Mock.state0 (Runs.session1 (Some false))
    [Returns (Mock.resp 200 (Some (JObj [("Code", JNum 1000);
                                         ("Scope", JStr "full self")])))] [].

(** A session that never authenticated but has a scope stored. *)
Definition scope_only_state : State :=
  Mock.state0
    (set_session_data {["Scope" := JStr "full self"]} (Mock.session0 (Some false)))
    [Returns (Mock.resp 200 (Some Cases.ok_body))] [].

(** [/auth/refresh] cannot be reached. *)
Definition refresh_refused_state : State :=
  Mock.state0 (Runs.session1 (Some false)) [ExcConnectionError] [].

End Manager.

(** ** Concrete runs of [authenticate] *)

Module Auth.

Definition auth_response : json :=
  JObj [("Code", JNum 1000); ("UID", JStr "u1"); ("AccessToken", JStr "a1");
        ("RefreshToken", JStr "r1"); ("PasswordMode", JNum 1);
        ("Scope", JStr "mail vpn"); ("ServerProof", JStr "M2")].

(** The server answers [/auth/info] and [/auth] as it should. *)
Definition happy_state : State :=
  Mock.state0 (Mock.session0 (Some false))
    [Returns (Mock.resp 200 (Some Runs.info_response));
     Returns (Mock.resp 200 (Some auth_response))] [].

Definition bad_proof_response : json :=
  JObj [("Code", JNum 1000); ("UID", JStr "u1"); ("AccessToken", JStr "a1");
        ("RefreshToken", JStr "r1"); ("PasswordMode", JNum 1);
        ("Scope", JStr "mail vpn"); ("ServerProof", JStr "M3")].

(** The server proof is not the expected one. *)
Definition bad_proof_state : State :=
  Mock.state0 (Mock.session0 (Some false))
    [Returns (Mock.resp 200 (Some Runs.info_response));
     Returns (Mock.resp 200 (Some bad_proof_response))] [].

Definition forged_info_response : json :=
  JObj [("Code", JNum 1000); ("Modulus", JStr "forged:W0RFTU9d");
        ("ServerEphemeral", JStr "Qg=="); ("Salt", JStr "c2FsdA==");
        ("Version", JNum 4); ("SRPSession", JStr "sess")].

(** The modulus of [/auth/info] is not signed; [/auth] would answer. *)
Definition forged_state : State :=
  Mock.state0 (Mock.session0 (Some false))
    [Returns (Mock.resp 200 (Some forged_info_response));
     Returns (Mock.resp 200 (Some auth_response))] [].

End Auth.

(** Do all the characters of [s] satisfy [p]? *)
Fixpoint all_chars (p : ascii -> bool) (s : string) : bool :=
  match s with
  | EmptyString => true
  | String c s' => p c && all_chars p s'
  end.

Definition not_space (c : ascii) : bool := negb (is_str_space c).

(** * Properties *)

Section Properties.
Context `{Ext : Externals}.

(** ** Unfolding the monad *)

Lemma bind_ok {A B} (m : M A) (k : A -> M B) st a st1 :
  m st = (Ok a, st1) -> bind m k st = k a st1.
Proof. intros H. unfold bind. now rewrite H. Qed.

Lemma bind_raise {A B} (m : M A) (k : A -> M B) st e st1 :
  m st = (Raise e, st1) -> bind m k st = (Raise e, st1).
Proof. intros H. unfold bind. now rewrite H. Qed.

Lemma bind_inv {A B} (m : M A) (k : A -> M B) st r st2 :
  bind m k st = (r, st2) ->
  (exists a st1, m st = (Ok a, st1) /\ k a st1 = (r, st2))
  \/ (exists e, m st = (Raise e, st2) /\ r = Raise e).
Proof.
  unfold bind. destruct (m st) as [[a|e] st1]; intros H.
  - left. eauto.
  - right. inversion H; subst. eauto.
Qed.

(** ** The policy guard of [api_request] *)

Lemma fetch_response_unconfigured probe endpoint jsondata additional_headers method
    params skip st :
  allow_alternative_routes (sess st) = None ->
  fetch_response probe endpoint jsondata additional_headers method params skip st
  = (Raise PolicyNotConfigured, st).
Proof.
  intros H. unfold fetch_response, bind, get_sess. cbn. now rewrite H.
Qed.

(** C1: a call of [api_request] on a session whose alternative-routing
    policy was never set raises the [RuntimeError] of line 195
    ([PolicyNotConfigured]) whatever its arguments, and leaves the whole
    machine as it was: the world was not consulted and the log of network
    events has not grown. *)
Theorem api_request_policy_not_configured endpoint jsondata additional_headers method
    params skip st :
  allow_alternative_routes (sess st) = None ->
  api_request endpoint jsondata additional_headers method params skip st
  = (Raise PolicyNotConfigured, st).
Proof.
  intros H. unfold api_request, api_request_with.
  apply bind_raise. now apply fetch_response_unconfigured.
Qed.

(** ** Bodies that are not JSON *)

Lemma decode_response_non_json r st :
  body r = None ->
  decode_response r st
  = if status_code r =? 200 then (Ok (RetRaw r), st) else (Raise (non_json_error r), st).
Proof.
  intros Hb. unfold decode_response. rewrite Hb.
  destruct (status_code r =? 200); reflexivity.
Qed.

(** Lines 263 to 299: when the response object that reaches line 263
    has a body that is not JSON, the call returns that very object if its
    status is 200, and raises [ProtonAPIError] with the status code, the
    reason and the headers of the response if its status is anything
    else.  A response of an alternative route with a status from 400 to
    599 does not reach line 263 (the run on
    [Runs.alt_non_json_state]). *)
Lemma api_request_decodes_non_json_body endpoint jsondata additional_headers method params
    skip st r st1 :
  fetch_response _is_api_reacheable endpoint jsondata additional_headers method params
    skip st = (Ok (Some r), st1) ->
  body r = None ->
  (status_code r = 200 ->
   api_request endpoint jsondata additional_headers method params skip st
   = (Ok (RetRaw r), st1))
  /\ (status_code r <> 200 ->
      api_request endpoint jsondata additional_headers method params skip st
      = (Raise (ProtonAPIError (JObj [("Code", JNum (status_code r));
                                      ("Error", JStr (reason r));
                                      ("Headers", JObj (resp_headers r))])), st1)).
Proof.
  intros Hf Hb. unfold api_request, api_request_with.
  rewrite (bind_ok _ _ _ _ _ Hf), (decode_response_non_json _ _ Hb).
  split; intros Hs.
  - rewrite Hs. reflexivity.
  - apply Z.eqb_neq in Hs. rewrite Hs. reflexivity.
Qed.

(** ** [verify_modulus] *)

(** C5, amended: [verify_modulus] raises [ValueError("Invalid modulus")]
    exactly when [gnupg] does not report a valid signature whose
    fingerprint, put in lower case, is the constant.  Otherwise the
    outcome is the one of [base64.b64decode] on the stripped plaintext:
    the decoded modulus is returned when there is one, and the
    [binascii.Error] of the decoding is raised when there is none.  No
    other error is raised, and the outcome depends on the fingerprint of
    the signer up to the case of its letters only. *)
Theorem verify_modulus_spec (armored_modulus : string) :
  let verified := gpg_decrypt armored_modulus in
  let accepted := valid verified = true
                  /\ lower (fingerprint verified) = SRP_MODULUS_KEY_FINGERPRINT in
  let plaintext := strip_by is_space (data verified) in
  (verify_modulus armored_modulus = Raise InvalidModulus <-> ~ accepted)
  /\ (forall modulus,
        verify_modulus armored_modulus = Ok modulus
        <-> accepted /\ b64decode plaintext = Some modulus)
  /\ (verify_modulus armored_modulus = Raise BinasciiError
      <-> accepted /\ b64decode plaintext = None)
  /\ (forall e, verify_modulus armored_modulus = Raise e ->
                e = InvalidModulus \/ e = BinasciiError)
  /\ (forall other,
        valid (gpg_decrypt other) = valid verified ->
        data (gpg_decrypt other) = data verified ->
        lower (fingerprint (gpg_decrypt other)) = lower (fingerprint verified) ->
        verify_modulus other = verify_modulus armored_modulus).
Proof.
  intros verified accepted plaintext.
  assert (Hcase : verify_modulus armored_modulus
                  = if valid verified
                       && String.eqb (lower (fingerprint verified)) SRP_MODULUS_KEY_FINGERPRINT
                    then match b64decode plaintext with
                         | Some m => Ok m
                         | None => Raise BinasciiError
                         end
                    else Raise InvalidModulus).
  { unfold verify_modulus, b64decode_bytes. fold verified. fold plaintext.
    destruct (valid verified && _); reflexivity. }
  assert (Hacc : accepted
                 <-> valid verified
                     && String.eqb (lower (fingerprint verified)) SRP_MODULUS_KEY_FINGERPRINT
                     = true).
  { unfold accepted. rewrite andb_true_iff, String.eqb_eq. reflexivity. }
  split; [|split; [|split; [|split]]].
  - rewrite Hacc, Hcase. destruct (valid verified && _).
    + destruct (b64decode plaintext); split; intros H; try discriminate; now elim H.
    + split; [discriminate | reflexivity].
  - intros modulus. rewrite Hacc, Hcase. destruct (valid verified && _).
    + destruct (b64decode plaintext) as [m|]; split.
      * intros H. inversion H. auto.
      * intros [_ H]. inversion H. reflexivity.
      * discriminate.
      * intros [_ H]. discriminate.
    + split; [discriminate | intros [H _]; discriminate].
  - rewrite Hacc, Hcase. destruct (valid verified && _).
    + destruct (b64decode plaintext) as [m|]; split; try discriminate; auto.
      intros [_ H]. discriminate.
    + split; [discriminate | intros [H _]; discriminate].
  - intros e. rewrite Hcase. destruct (valid verified && _).
    + destruct (b64decode plaintext); [discriminate|].
      intros H. inversion H. auto.
    + intros H. inversion H. auto.
  - intros other Hv Hd Hf. unfold verify_modulus. fold verified.
    now rewrite Hv, Hd, Hf.
Qed.

(** ** The DoH resolution *)

(** The loop over the collected responses keeps what the last one yields. *)
Lemma extract_each_last responses response dns_query routes :
  Forall (fun c => is_Some (from_wire_answer dns_query c)) responses ->
  extract_each (responses ++ [response]) dns_query routes
  = extract_dns_answer response dns_query.
Proof.
  intros Hall. revert routes.
  induction Hall as [|c cs [a Ha] _ IH]; intros routes; cbn.
  - destruct (extract_dns_answer response dns_query); reflexivity.
  - unfold extract_dns_answer at 1. rewrite Ha. apply IH.
Qed.

(** ** The retry over the alternative routes *)

Lemma make_request_metadata v kw st r st' :
  make_request v kw st = (r, st') -> metadata st' = metadata st.
Proof.
  unfold make_request. destruct (fct _ _) as [out w].
  destruct out; intros H; inversion H; reflexivity.
Qed.

Lemma alt_loop_metadata v kw routes : forall st response st',
  alt_loop v kw routes st = (response, st') ->
  match response with
  | Some _ => exists route, In route routes
                /\ metadata st' = store_alternative_route ("https://" ++ route) (metadata st)
  | None => metadata st' = metadata st
  end.
Proof.
  revert kw. induction routes as [|route rest IH]; intros kw st response st' H; cbn in H.
  - inversion H; subst. reflexivity.
  - destruct (make_request _ _ _) as [[r|e] st2] eqn:Hm.
    + inversion H; subst. exists route. split; [now left|]. cbn.
      rewrite (make_request_metadata _ _ _ _ _ Hm).
      destruct (tls_pinning_enabled (sess st)); reflexivity.
    + apply IH in H. apply make_request_metadata in Hm.
      assert (Hst : metadata st2 = metadata st)
        by (rewrite Hm; destruct (tls_pinning_enabled (sess st)); reflexivity).
      destruct response as [r|].
      * destruct H as (rt & Hin & Hmeta). exists rt. split; [now right|]. now rewrite <- Hst.
      * now rewrite H.
Qed.

(** A response handed back by the retry comes with its host in the route
    cache, and the retry raises nothing but [NetworkError]. *)
Lemma try_alt_routes_result v kw routes st res st' :
  try_alt_routes v kw routes st = (res, st') ->
  match res with
  | Ok r => resp_ok r = true
            /\ exists route, In route routes
                 /\ metadata st' = store_alternative_route ("https://" ++ route) (metadata st)
  | Raise e => e = NetworkError "Network error"
  end.
Proof.
  unfold try_alt_routes. destruct (alt_loop _ _ _ _) as [response st1] eqn:Hl.
  intros H. inversion H; subst. apply alt_loop_metadata in Hl.
  destruct response as [r|]; cbn; [|reflexivity].
  destruct (resp_ok r) eqn:Hok; [|reflexivity]. split; [exact Hok | exact Hl].
Qed.

(** ** The frame of a request *)

Lemma frame_refl s : frame s s.
Proof. constructor; reflexivity. Qed.

Lemma frame_trans s1 s2 s3 : frame s1 s2 -> frame s2 s3 -> frame s1 s3.
Proof.
  intros [] []. constructor; try congruence.
  intros k H1 H2. rewrite fr_headers1, fr_headers0; auto.
Qed.

Lemma sent_under_frame s s' kh e : frame s s' -> sent_under s' kh e -> sent_under s kh e.
Proof.
  intros Hf. destruct e as [req|]; cbn; [|auto].
  intros (s1 & Hf1 & H). exists s1. split; [eapply frame_trans; eauto | exact H].
Qed.

Lemma extends_refl kh st : extends kh st st.
Proof.
  split; [apply frame_refl|]. exists []. split; [now rewrite app_nil_r | constructor].
Qed.

Lemma extends_trans kh st1 st2 st3 :
  extends kh st1 st2 -> extends kh st2 st3 -> extends kh st1 st3.
Proof.
  intros (Hf1 & n1 & Hl1 & Ha1) (Hf2 & n2 & Hl2 & Ha2).
  split; [eapply frame_trans; eauto|].
  exists (n1 ++ n2)%list. split.
  - rewrite Hl2, Hl1. now rewrite <- app_assoc.
  - apply Forall_app. split; [exact Ha1|].
    eapply Forall_impl; [exact Ha2|]. intros e. now apply sent_under_frame.
Qed.

(** Changing the session within the frame, the world or the route cache
    extends the state. *)
Lemma extends_with_sess kh st s :
  frame (sess st) s -> extends kh st (with_sess s st).
Proof.
  intros Hf. split; [exact Hf|]. exists []. split; [cbn; now rewrite app_nil_r|constructor].
Qed.

Lemma extends_with_world kh st w : extends kh st (with_world w st).
Proof.
  split; [apply frame_refl|]. exists []. split; [cbn; now rewrite app_nil_r|constructor].
Qed.

Lemma extends_with_metadata kh st m : extends kh st (with_metadata m st).
Proof.
  split; [apply frame_refl|]. exists []. split; [cbn; now rewrite app_nil_r|constructor].
Qed.

Lemma extends_log kh st e : sent_under (sess st) kh e -> extends kh st (log_event e st).
Proof.
  intros H. split; [apply frame_refl|]. exists [e]. split; [reflexivity|].
  constructor; [exact H|constructor].
Qed.

Lemma keeps_ret {A} kh (a : A) : keeps kh (ret a).
Proof. intros st r st' H. inversion H; subst. apply extends_refl. Qed.

Lemma keeps_raise {A} kh e : keeps kh (raise (A := A) e).
Proof. intros st r st' H. inversion H; subst. apply extends_refl. Qed.

Lemma keeps_lift {A} kh (x : Res A) : keeps kh (lift x).
Proof. intros st r st' H. inversion H; subst. apply extends_refl. Qed.

Lemma keeps_get_sess kh : keeps kh get_sess.
Proof. intros st r st' H. inversion H; subst. apply extends_refl. Qed.

Lemma keeps_bind {A B} kh (m : M A) (k : A -> M B) :
  keeps kh m -> (forall a, keeps kh (k a)) -> keeps kh (bind m k).
Proof.
  intros Hm Hk st r st' H. apply bind_inv in H.
  destruct H as [(a & st1 & H1 & H2)|(e & H1 & _)].
  - eapply extends_trans; [eapply Hm | eapply Hk]; eauto.
  - eapply Hm; eauto.
Qed.

Lemma keeps_modify_sess kh f :
  (forall s, frame s (f s)) -> keeps kh (modify_sess f).
Proof.
  intros Hf st r st' H. inversion H; subst. apply extends_with_sess, Hf.
Qed.

Lemma frame_set_adapters s a : frame s (set_adapters a s).
Proof. constructor; reflexivity. Qed.

Lemma frame_set_captcha_token s t : frame s (set_captcha_token t s).
Proof. constructor; reflexivity. Qed.

Lemma frame_del_human_verification_token s : frame s (del_human_verification_token s).
Proof.
  constructor; try reflexivity. intros k H1 H2. cbn. unfold hdel.
  rewrite !lookup_delete_ne; auto.
Qed.

Lemma keeps_make_request kh v kw :
  kw_headers kw = kh \/ kw_headers kw = None -> keeps kh (make_request v kw).
Proof.
  intros Hkw st r st' H. unfold make_request in H.
  destruct (fct _ _) as [out w].
  assert (Hext : extends kh st (log_event (NetHttp (request_of v kw (sess st)))
                                  (with_world w st))).
  { eapply extends_trans; [apply extends_with_world|]. apply extends_log. cbn.
    exists (sess st). split; [apply frame_refl|].
    destruct Hkw as [<- | ->]; [left|right]; reflexivity. }
  destruct out; inversion H; subst; exact Hext.
Qed.

Lemma query_for_dns_data_extends kh h d st r st' :
  query_for_dns_data h d st = (r, st') -> extends kh st st'.
Proof.
  unfold query_for_dns_data. destruct (doh_get _ _ _) as [out w].
  assert (Hext : extends kh st (log_event (NetDoh h d) (with_world w st))).
  { eapply extends_trans; [apply extends_with_world|]. now apply extends_log. }
  destruct out; intros H; inversion H; subst; exact Hext.
Qed.

Lemma query_all_extends kh d hosts : forall st rs st',
  query_all hosts d st = (rs, st') -> extends kh st st'.
Proof.
  induction hosts as [|h hs IH]; intros st rs st' H; cbn in H.
  - inversion H; subst. apply extends_refl.
  - destruct (query_for_dns_data h d st) as [r st1] eqn:H1.
    destruct (query_all hs d st1) as [rs' st2] eqn:H2.
    inversion H; subst.
    eapply extends_trans; [eapply query_for_dns_data_extends | eapply IH]; eauto.
Qed.

Lemma keeps_resolve_names kh names : forall routes, keeps kh (resolve_names names routes).
Proof.
  induction names as [|n rest IH]; intros routes st r st' H; cbn in H.
  - inversion H; subst. apply extends_refl.
  - destruct (generate_dns_message n (world st)) as [[q d] w].
    destruct DNS_HOSTS as [|h0 hs0] eqn:Hh.
    + inversion H; subst. apply extends_with_world.
    + destruct (query_all (h0 :: hs0) d (with_world w st)) as [rs st1] eqn:Hq.
      assert (Hext : extends kh st st1).
      { eapply extends_trans; [apply extends_with_world|].
        eapply query_all_extends; eauto. }
      destruct (non_empty_responses rs) as [|c cs].
      * eapply extends_trans; [exact Hext | eapply IH; eauto].
      * destruct (extract_each _ _ _) as [routes'|e].
        -- destruct (size routes').
           ++ eapply extends_trans; [exact Hext | eapply IH; eauto].
           ++ inversion H; subst. exact Hext.
        -- inversion H; subst. exact Hext.
Qed.

Lemma keeps_get_alternative_routes_from_dns kh : keeps kh get_alternative_routes_from_dns.
Proof.
  unfold get_alternative_routes_from_dns. destruct dns_available.
  - apply keeps_resolve_names.
  - apply keeps_raise.
Qed.

Lemma alt_loop_extends kh v routes : forall kw st response st',
  kw_headers kw = kh \/ kw_headers kw = None ->
  alt_loop v kw routes st = (response, st') -> extends kh st st'.
Proof.
  induction routes as [|route rest IH]; intros kw st response st' Hkw H; cbn in H.
  - inversion H; subst. apply extends_refl.
  - set (st1 := if tls_pinning_enabled (sess st)
                then mount ("https://" ++ route) (TLSPinningAdapter true) st else st) in *.
    assert (H1 : extends kh st st1).
    { subst st1. destruct (tls_pinning_enabled (sess st)); [|apply extends_refl].
      apply extends_with_sess, frame_set_adapters. }
    destruct (make_request _ _ st1) as [[r|e] st2] eqn:Hm.
    + inversion H; subst. eapply extends_trans; [exact H1|].
      eapply extends_trans; [|apply extends_with_metadata].
      eapply keeps_make_request; [|exact Hm]. exact Hkw.
    + eapply extends_trans; [exact H1|].
      eapply extends_trans; [eapply keeps_make_request; [|exact Hm]; exact Hkw|].
      eapply IH; [|exact H]. exact Hkw.
Qed.

Lemma keeps_try_alt_routes kh v kw routes :
  kw_headers kw = kh \/ kw_headers kw = None -> keeps kh (try_alt_routes v kw routes).
Proof.
  intros Hkw st r st' H. unfold try_alt_routes in H.
  destruct (alt_loop _ _ _ _) as [response st1] eqn:Hl. inversion H; subst.
  eapply alt_loop_extends; [|exact Hl]. exact Hkw.
Qed.

Lemma keeps_try_with_alt_routing kh v kw :
  kw_headers kw = kh \/ kw_headers kw = None -> keeps kh (try_with_alt_routing v kw).
Proof.
  intros Hkw. unfold try_with_alt_routing. apply keeps_bind.
  - apply keeps_get_alternative_routes_from_dns.
  - intros routes. now apply keeps_try_alt_routes.
Qed.

Lemma keeps_check_code kh response : keeps kh (check_code response).
Proof.
  unfold check_code. apply keeps_bind; [apply keeps_lift|]. intros code.
  destruct (is_success_code code); [apply keeps_ret|].
  apply keeps_bind; [|intros _; apply keeps_raise].
  destruct (json_eqb code (JNum 9001)).
  - apply keeps_bind; [apply keeps_lift|]. intros details.
    apply keeps_bind; [apply keeps_lift|]. intros token.
    apply keeps_modify_sess. intros s. apply frame_set_captcha_token.
  - destruct (json_eqb code (JNum 12087)); [|apply keeps_ret].
    apply keeps_modify_sess. apply frame_del_human_verification_token.
Qed.

Lemma keeps_decode_response kh response : keeps kh (decode_response response).
Proof.
  unfold decode_response. destruct (body response) as [j|].
  - intros st r st' H.
    destruct (check_code j st) as [[u|e] st1] eqn:Hc;
      pose proof (keeps_check_code kh j _ _ _ Hc) as Hext.
    + inversion H; subst. exact Hext.
    + destruct e; try (inversion H; subst; exact Hext).
      destruct (negb _); inversion H; subst; exact Hext.
  - destruct (negb _); [apply keeps_raise | apply keeps_ret].
Qed.

Lemma keeps_fetch_response kh probe endpoint jsondata method params skip :
  keeps kh probe ->
  keeps kh (fetch_response probe endpoint jsondata kh method params skip).
Proof.
  intros Hp. unfold fetch_response. apply keeps_bind; [apply keeps_get_sess|]. intros s.
  destruct (allow_alternative_routes s) as [allow|]; [|apply keeps_raise].
  destruct (select_fct method jsondata) as [v|]; [|apply keeps_raise].
  intros st r st' H.
  destruct (try_original_url _ _ _) as [orig m].
  set (kw := {| kw_url := _ |}) in H.
  assert (Hkw : kw_headers kw = kh \/ kw_headers kw = None) by (left; reflexivity).
  destruct (make_request v kw (with_metadata m st)) as [[response|e] st1] eqn:Hm;
    assert (H1 : extends kh st st1)
      by (eapply extends_trans; [apply extends_with_metadata|];
          eapply keeps_make_request; [exact Hkw | exact Hm]).
  - inversion H; subst. exact H1.
  - destruct (is_transport_error e); [|inversion H; subst; exact H1].
    destruct (negb allow || skip || force_skip_alternative_routing s);
      [inversion H; subst; exact H1|].
    destruct (probe st1) as [[b|e'] st2] eqn:Hpr;
      assert (H2 : extends kh st st2)
        by (eapply extends_trans; [exact H1 | eapply Hp; exact Hpr]).
    + destruct b; [inversion H; subst; exact H2|].
      destruct (try_with_alt_routing v kw st2) as [[response|e'] st3] eqn:Ha;
        inversion H; subst;
        (eapply extends_trans; [exact H2|];
         eapply keeps_try_with_alt_routing; [exact Hkw | exact Ha]).
    + inversion H; subst. exact H2.
Qed.

Lemma keeps_api_request_with kh probe endpoint jsondata method params skip :
  keeps kh probe ->
  keeps kh (api_request_with probe endpoint jsondata kh method params skip).
Proof.
  intros Hp. unfold api_request_with. apply keeps_bind.
  - now apply keeps_fetch_response.
  - intros [r|]; [apply keeps_decode_response | apply keeps_raise].
Qed.

Lemma sent_under_None kh s e : sent_under s None e -> sent_under s kh e.
Proof.
  destruct e as [req|]; cbn; [|auto].
  intros (s1 & Hf & H). exists s1. split; [exact Hf|]. right. destruct H; assumption.
Qed.

Lemma extends_None kh st st' : extends None st st' -> extends kh st st'.
Proof.
  intros (Hf & new & Hl & Ha). split; [exact Hf|]. exists new. split; [exact Hl|].
  eapply Forall_impl; [exact Ha|]. intros e. apply sent_under_None.
Qed.

Lemma keeps_is_api_reacheable kh : keeps kh _is_api_reacheable.
Proof.
  intros st r st' H. unfold _is_api_reacheable in H. apply extends_None.
  destruct (ping st) as [[a|e] st1] eqn:Hp;
    assert (Hext : extends None st st1)
      by (eapply (keeps_api_request_with None); [apply keeps_ret | exact Hp]).
  - inversion H; subst. exact Hext.
  - destruct (is_transport_error e); inversion H; subst; exact Hext.
Qed.

(** [api_request] frames the session, and each request it logs was sent
    with the headers of the session merged with [additional_headers] (or
    with nothing, for the probe). *)
Lemma keeps_api_request endpoint jsondata additional_headers method params skip :
  keeps additional_headers
    (api_request endpoint jsondata additional_headers method params skip).
Proof. apply keeps_api_request_with, keeps_is_api_reacheable. Qed.

(** ** [logout] *)

Lemma auth_keys_not_hv :
  lower "Authorization" <> hv_type_key /\ lower "Authorization" <> hv_key
  /\ lower "x-pm-uid" <> hv_type_key /\ lower "x-pm-uid" <> hv_key.
Proof. repeat split; vm_compute; discriminate. Qed.

Lemma frame_hget k s s' :
  frame s s' -> lower k <> hv_type_key -> lower k <> hv_key ->
  hget k (headers s') = hget k (headers s).
Proof. intros Hf H1 H2. unfold hget. now apply (fr_headers _ _ Hf). Qed.

Lemma frame_auth_headers s s' :
  frame s s' ->
  hget "Authorization" (headers s') = hget "Authorization" (headers s)
  /\ hget "x-pm-uid" (headers s') = hget "x-pm-uid" (headers s).
Proof.
  intros Hf. destruct auth_keys_not_hv as (H1 & H2 & H3 & H4).
  split; apply frame_hget; assumption.
Qed.

Lemma logout_unfold st :
  logout st
  = if has_session_data (sess st) then
      match logout_request st with
      | (Ok _, st1) =>
          (del_header "Authorization" ;;; del_header "x-pm-uid" ;;;
           modify_sess (set_session_data ∅)) st1
      | (Raise e, st1) => (Raise e, st1)
      end
    else (Ok tt, st).
Proof.
  unfold logout, bind, get_sess, logout_request. cbn.
  destruct (has_session_data (sess st)); reflexivity.
Qed.



(** ** [authenticate] *)

Lemma logout_clear_inv st r st2 :
  (del_header "Authorization" ;;; del_header "x-pm-uid" ;;;
   modify_sess (set_session_data ∅)) st = (Ok r, st2) ->
  session_data (sess st2) = ∅
  /\ hget "Authorization" (headers (sess st2)) = None
  /\ hget "x-pm-uid" (headers (sess st2)) = None.
Proof.
  unfold bind, del_header, get_sess, modify_sess, hget, hdel. cbn.
  destruct (headers (sess st) !! lower "Authorization") as [a|]; [|discriminate]. cbn.
  rewrite lookup_delete_ne by (vm_compute; discriminate).
  destruct (headers (sess st) !! lower "x-pm-uid") as [u|]; [|discriminate]. cbn.
  intros H. inversion H; subst. cbn. split; [reflexivity|]. split.
  - rewrite lookup_delete_ne by (vm_compute; discriminate). apply lookup_delete_eq.
  - apply lookup_delete_eq.
Qed.

Lemma has_session_data_false s : has_session_data s = false -> session_data s = ∅.
Proof.
  unfold has_session_data. intros H. apply negb_false_iff, Nat.eqb_eq in H.
  now apply map_size_empty_iff.
Qed.

(** A log-out that returns leaves no credentials; it does nothing on a
    session without credentials and removes both headers otherwise. *)
Lemma logout_returns st r st0 :
  logout st = (Ok r, st0) ->
  session_data (sess st0) = ∅
  /\ (has_session_data (sess st) = false -> st0 = st)
  /\ (has_session_data (sess st) = true ->
      hget "Authorization" (headers (sess st0)) = None
      /\ hget "x-pm-uid" (headers (sess st0)) = None).
Proof.
  rewrite logout_unfold. destruct (has_session_data (sess st)) eqn:Hsd.
  - destruct (logout_request st) as [[x|e] st1]; [|discriminate].
    intros H. apply logout_clear_inv in H. destruct H as (H1 & H2 & H3).
    split; [exact H1|]. split; [discriminate|]. intros _. split; assumption.
  - intros H. inversion H; subst. split; [now apply has_session_data_false|].
    split; [reflexivity | discriminate].
Qed.

Lemma keeps_authenticate_srp username password :
  keeps None (authenticate_srp username password).
Proof.
  unfold authenticate_srp.
  apply keeps_bind; [apply keeps_get_sess|]. intros s.
  apply keeps_bind; [apply keeps_api_request|]. intros info.
  do 7 (apply keeps_bind; [apply keeps_lift|]; intros ?).
  apply keeps_bind.
  { intros st r st' H. destruct (PmsrpUser _ _ _) as [u w]. inversion H; subst.
    apply extends_with_world. }
  intros usr. destruct (process_challenge _ _ _ _) as [[proof|] usr']; [|apply keeps_raise].
  apply keeps_bind; [apply keeps_lift|]. intros srp.
  apply keeps_bind; [apply keeps_api_request|]. intros auth. apply keeps_ret.
Qed.


(** ** [refresh] *)






(** ** The policy attribute *)

Lemma ka_of_keeps {A} kh (m : M A) : keeps kh m -> keeps_allow m.
Proof. intros H st r st' Hm. destruct (H _ _ _ Hm) as [Hf _]. apply (fr_allow _ _ Hf). Qed.

Lemma ka_ret {A} (a : A) : keeps_allow (ret a).
Proof. intros st r st' H. now inversion H. Qed.

Lemma ka_raise {A} e : keeps_allow (raise (A := A) e).
Proof. intros st r st' H. now inversion H. Qed.

Lemma ka_lift {A} (x : Res A) : keeps_allow (lift x).
Proof. intros st r st' H. now inversion H. Qed.

Lemma ka_get_sess : keeps_allow get_sess.
Proof. intros st r st' H. now inversion H. Qed.

Lemma ka_bind {A B} (m : M A) (k : A -> M B) :
  keeps_allow m -> (forall a, keeps_allow (k a)) -> keeps_allow (bind m k).
Proof.
  intros Hm Hk st r st' H. apply bind_inv in H.
  destruct H as [(a & st1 & H1 & H2)|(e & H1 & _)].
  - rewrite (Hk _ _ _ _ H2). eapply Hm; eauto.
  - eapply Hm; eauto.
Qed.

Lemma ka_modify_sess f :
  (forall s, allow_alternative_routes (f s) = allow_alternative_routes s) ->
  keeps_allow (modify_sess f).
Proof. intros Hf st r st' H. inversion H; subst. apply Hf. Qed.

Lemma ka_del_header k : keeps_allow (del_header k).
Proof.
  unfold del_header. apply ka_bind; [apply ka_get_sess|]. intros s.
  destruct (hget k (headers s)); [|apply ka_raise]. now apply ka_modify_sess.
Qed.

Lemma ka_set_header k v : keeps_allow (set_header k v).
Proof. now apply ka_modify_sess. Qed.

Lemma ka_sd_set k v : keeps_allow (sd_set k v).
Proof. now apply ka_modify_sess. Qed.

Lemma ka_api_request endpoint jsondata additional_headers method params skip :
  keeps_allow (api_request endpoint jsondata additional_headers method params skip).
Proof. eapply ka_of_keeps, keeps_api_request. Qed.

Lemma ka_logout : keeps_allow logout.
Proof.
  unfold logout. apply ka_bind; [apply ka_get_sess|]. intros s.
  destruct (has_session_data s); [|apply ka_ret].
  apply ka_bind; [apply ka_api_request|]. intros _.
  apply ka_bind; [apply ka_del_header|]. intros _.
  apply ka_bind; [apply ka_del_header|]. intros _. now apply ka_modify_sess.
Qed.

Lemma ka_refresh : keeps_allow refresh.
Proof.
  unfold refresh. apply ka_bind; [apply ka_get_sess|]. intros s.
  apply ka_bind; [apply ka_api_request|]. intros resp.
  apply ka_bind; [apply ka_lift|]. intros a.
  apply ka_bind; [apply ka_sd_set|]. intros _.
  apply ka_bind; [apply ka_lift|]. intros r.
  apply ka_bind; [apply ka_sd_set|]. intros _.
  apply ka_bind; [apply ka_get_sess|]. intros s'.
  apply ka_bind; [apply ka_lift|]. intros b. apply ka_set_header.
Qed.

Lemma ka_provide_2fa code : keeps_allow (provide_2fa code).
Proof.
  unfold provide_2fa. apply ka_bind; [apply ka_api_request|]. intros r.
  apply ka_bind; [apply ka_lift|]. intros sc.
  apply ka_bind; [apply ka_sd_set|]. intros _.
  apply ka_bind; [apply ka_get_sess|]. intros s. apply ka_ret.
Qed.

Lemma ka_authenticate_finish x : keeps_allow (authenticate_finish x).
Proof.
  destruct x as [usr auth]. unfold authenticate_finish.
  apply ka_bind; [apply ka_lift|]. intros has.
  destruct (negb has); [apply ka_raise|].
  do 2 (apply ka_bind; [apply ka_lift|]; intros ?).
  destruct (negb _); [apply ka_raise|].
  do 6 (apply ka_bind; [apply ka_lift|]; intros ?).
  apply ka_bind; [now apply ka_modify_sess|]. intros _.
  apply ka_bind; [apply ka_get_sess|]. intros s.
  apply ka_bind.
  - destruct (negb _); [|apply ka_ret].
    apply ka_bind; [apply ka_set_header|]. intros _.
    apply ka_bind; [apply ka_lift|]. intros b. apply ka_set_header.
  - intros _. apply ka_bind; [apply ka_get_sess|]. intros s'. apply ka_ret.
Qed.

Lemma ka_authenticate username password : keeps_allow (authenticate username password).
Proof.
  unfold authenticate, authenticate_exchange.
  apply ka_bind; [|apply ka_authenticate_finish].
  apply ka_bind; [apply ka_logout|]. intros _.
  eapply ka_of_keeps, keeps_authenticate_srp.
Qed.

(** The setter stores [bool(newvalue)]. *)
Lemma set_enable_alternative_routing_bool newvalue s :
  allow_alternative_routes (set_enable_alternative_routing newvalue s)
  = Some (truthy newvalue).
Proof.
  unfold set_enable_alternative_routing, opt_bool_eqb.
  destruct (allow_alternative_routes s) as [b|] eqn:Hb; cbn; [|reflexivity].
  destruct (Bool.eqb b (truthy newvalue)) eqn:He; cbn; [|reflexivity].
  apply Bool.eqb_prop in He. now rewrite Hb, He.
Qed.

(** No call of the interface takes a set policy back to [None]. *)
Lemma run_call_configured c st :
  is_Some (allow_alternative_routes (sess st)) ->
  is_Some (allow_alternative_routes (sess (run_call c st))).
Proof.
  intros H.
  assert (K : forall A (m : M A), keeps_allow m ->
              is_Some (allow_alternative_routes (sess (snd (m st))))).
  { intros A m Hm. destruct (m st) as [r st'] eqn:E. cbn. now rewrite (Hm _ _ _ E). }
  destruct c; cbn [run_call].
  - apply K, ka_api_request.
  - apply K, ka_authenticate.
  - apply K, ka_provide_2fa.
  - apply K, ka_logout.
  - apply K, ka_refresh.
  - apply K. eapply ka_of_keeps. apply (keeps_get_alternative_routes_from_dns None).
  - cbn. rewrite set_enable_alternative_routing_bool. eauto.
  - exact H.
  - exact H.
  - exact H.
Qed.

Lemma run_calls_configured calls : forall st,
  is_Some (allow_alternative_routes (sess st)) ->
  is_Some (allow_alternative_routes (sess (run_calls calls st))).
Proof.
  induction calls as [|c calls IH]; intros st H; [exact H|].
  cbn. apply IH. now apply run_call_configured.
Qed.

(** *** The errors of [api_request] on a configured session *)

Lemma make_request_sess v kw st r st' : make_request v kw st = (r, st') -> sess st' = sess st.
Proof.
  unfold make_request. destruct (fct _ _) as [out w].
  destruct out; intros H; inversion H; reflexivity.
Qed.

Lemma make_request_error v kw st e st' :
  make_request v kw st = (Raise e, st') ->
  is_transport_error e = true \/ e = UnknownConnectionError.
Proof.
  unfold make_request. destruct (fct _ _) as [out w].
  destruct out; intros H; inversion H; subst; auto.
Qed.

Lemma extract_each_error responses q : forall routes e,
  extract_each responses q routes = Raise e -> e = DNSException.
Proof.
  induction responses as [|c cs IH]; intros routes e H; cbn in H; [discriminate|].
  unfold extract_dns_answer in H. destruct (from_wire_answer q c).
  - eapply IH; eauto.
  - now inversion H.
Qed.

Lemma resolve_names_error names : forall routes st e st',
  resolve_names names routes st = (Raise e, st') -> not_runtime e.
Proof.
  induction names as [|n rest IH]; intros routes st e st' H; cbn in H; [discriminate|].
  destruct (generate_dns_message n (world st)) as [[q d] w].
  destruct DNS_HOSTS as [|h0 hs0].
  - inversion H; subst. exact I.
  - destruct (query_all _ _ _) as [rs st1].
    destruct (non_empty_responses rs) as [|c cs]; [eapply IH; eauto|].
    destruct (extract_each _ _ _) as [routes'|e'] eqn:He.
    + destruct (size routes'); [eapply IH; eauto | discriminate].
    + inversion H; subst. apply extract_each_error in He. subst. exact I.
Qed.

Lemma try_with_alt_routing_error v kw st e st' :
  try_with_alt_routing v kw st = (Raise e, st') -> not_runtime e.
Proof.
  unfold try_with_alt_routing. intros H. apply bind_inv in H.
  destruct H as [(routes & st1 & _ & H)|(e' & H & He)].
  - apply try_alt_routes_result in H. subst. exact I.
  - inversion He; subst. unfold get_alternative_routes_from_dns in H.
    destruct dns_available.
    + eapply resolve_names_error; eauto.
    + inversion H; subst. exact I.
Qed.

Lemma subscript_error v k e : subscript v k = Raise e -> not_runtime e.
Proof.
  unfold subscript. destruct v; try (intros H; inversion H; subst; exact I).
  destruct (assoc k d); intros H; inversion H; subst; exact I.
Qed.

Lemma check_code_error response st e st' :
  check_code response st = (Raise e, st') -> not_runtime e.
Proof.
  unfold check_code, bind, lift.
  destruct (subscript response "Code") as [code|e0] eqn:Hc.
  - destruct (is_success_code code); [discriminate|].
    destruct (json_eqb code (JNum 9001)).
    + destruct (subscript response "Details") as [details|e1] eqn:Hd.
      * destruct (subscript details "HumanVerificationToken") as [token|e2] eqn:Ht.
        -- cbn. intros H. inversion H; subst. exact I.
        -- intros H. inversion H; subst. eapply subscript_error; eauto.
      * intros H. inversion H; subst. eapply subscript_error; eauto.
    + destruct (json_eqb code (JNum 12087)); cbn; intros H; inversion H; subst; exact I.
  - intros H. inversion H; subst. eapply subscript_error; eauto.
Qed.

Lemma decode_response_error response st e st' :
  decode_response response st = (Raise e, st') -> not_runtime e.
Proof.
  unfold decode_response. destruct (body response) as [j|].
  - destruct (check_code j st) as [[u|e0] st1] eqn:Hc; [discriminate|].
    pose proof (check_code_error _ _ _ _ Hc) as Hn.
    destruct e0; try (intros H; inversion H; subst; exact Hn).
    destruct (negb _); intros H; inversion H; subst; exact I.
  - destruct (negb _); intros H; inversion H; subst; exact I.
Qed.

Lemma transport_error_not_runtime e : is_transport_error e = true -> not_runtime e.
Proof. destruct e; cbn; intros H; try discriminate; exact I. Qed.

Lemma fetch_response_error probe endpoint jsondata additional_headers method params skip :
  no_policy_error probe ->
  no_policy_error
    (fetch_response probe endpoint jsondata additional_headers method params skip).
Proof.
  intros Hp st e st' Hallow. unfold fetch_response, bind at 1, get_sess.
  destruct (allow_alternative_routes (sess st)) as [allow|] eqn:Ha; [|congruence].
  destruct (select_fct method jsondata) as [v|];
    [|intros H; inversion H; subst; exact I].
  destruct (try_original_url _ _ _) as [orig m].
  destruct (make_request _ _ _) as [[response|e0] st1] eqn:Hm; [discriminate|].
  pose proof (make_request_sess _ _ _ _ _ Hm) as Hs. cbn in Hs.
  destruct (is_transport_error e0) eqn:Ht;
    [|intros H; inversion H; subst; exact I].
  destruct (negb allow || skip || force_skip_alternative_routing (sess st)).
  - intros H. inversion H; subst. now apply transport_error_not_runtime.
  - destruct (probe st1) as [[b|e1] st2] eqn:Hpr.
    + destruct b; [discriminate|].
      destruct (try_with_alt_routing _ _ _) as [[response|e2] st3] eqn:Halt;
        [discriminate|].
      intros H. inversion H; subst. eapply try_with_alt_routing_error; eauto.
    + intros H. inversion H; subst. eapply Hp; [|exact Hpr]. rewrite Hs, Ha. discriminate.
Qed.

Lemma api_request_with_error probe endpoint jsondata additional_headers method params skip :
  no_policy_error probe ->
  no_policy_error
    (api_request_with probe endpoint jsondata additional_headers method params skip).
Proof.
  intros Hp st e st' Hallow H. unfold api_request_with in H. apply bind_inv in H.
  destruct H as [(response & st1 & _ & H)|(e' & H & He)].
  - destruct response as [r|].
    + eapply decode_response_error; eauto.
    + inversion H; subst. exact I.
  - inversion He; subst. eapply fetch_response_error; eauto.
Qed.

Lemma is_api_reacheable_error : no_policy_error _is_api_reacheable.
Proof.
  intros st e st' Hallow. unfold _is_api_reacheable.
  destruct (ping st) as [[a|e0] st1] eqn:Hp; [discriminate|].
  destruct (is_transport_error e0); [discriminate|].
  intros H. inversion H; subst.
  eapply (api_request_with_error (ret true)); [|exact Hallow|exact Hp].
  intros ? ? ? _ Hr. discriminate Hr.
Qed.

Lemma api_request_error endpoint jsondata additional_headers method params skip :
  no_policy_error (api_request endpoint jsondata additional_headers method params skip).
Proof. apply api_request_with_error, is_api_reacheable_error. Qed.

(** C10: the setter of [enable_alternative_routing] stores
    [bool(newvalue)] whatever [newvalue] is; after it, through any
    sequence of calls of the session's interface (requests,
    authentication, log-out, refresh, the setters themselves), the policy
    attribute is a boolean, never [None] again, and no call of
    [api_request] raises the [RuntimeError] of an unset policy. *)
Theorem alternative_routing_stays_configured newvalue calls st :
  let st1 := with_sess (set_enable_alternative_routing newvalue (sess st)) st in
  let st2 := run_calls calls st1 in
  allow_alternative_routes (sess st1) = Some (truthy newvalue)
  /\ (exists b, allow_alternative_routes (sess st2) = Some b)
  /\ forall endpoint jsondata additional_headers method params skip,
       fst (api_request endpoint jsondata additional_headers method params skip st2)
       <> Raise PolicyNotConfigured.
Proof.
  intros st1 st2.
  assert (H1 : allow_alternative_routes (sess st1) = Some (truthy newvalue))
    by apply set_enable_alternative_routing_bool.
  assert (H2 : is_Some (allow_alternative_routes (sess st2))).
  { apply run_calls_configured. rewrite H1. eauto. }
  split; [exact H1|]. split; [exact H2|].
  intros endpoint jsondata additional_headers method params skip Hr.
  destruct (api_request _ _ _ _ _ _ st2) as [r st3] eqn:E. cbn in Hr. subst r.
  apply api_request_error in E.
  - exact E.
  - destruct H2 as [b Hb]. rewrite Hb. discriminate.
Qed.

(** ** [dump] and [load] *)

Lemma get_dict_snoc jar c :
  get_dict (jar ++ [c]) = <[cookie_name c := cookie_value c]> (get_dict jar).
Proof. unfold get_dict. now rewrite foldl_app. Qed.

Lemma get_dict_filter p jar k :
  (forall c, cookie_name c = k -> p c = true) ->
  get_dict (List.filter p jar) !! k = get_dict jar !! k.
Proof.
  intros Hp. induction jar as [|c jar IH] using rev_ind; [reflexivity|].
  rewrite List.filter_app, get_dict_snoc. cbn.
  destruct (decide (cookie_name c = k)) as [Hk|Hk].
  - rewrite (Hp c Hk), get_dict_snoc. subst k. now rewrite !lookup_insert_eq.
  - rewrite lookup_insert_ne by exact Hk.
    destruct (p c); [rewrite get_dict_snoc, lookup_insert_ne by exact Hk|rewrite app_nil_r];
      exact IH.
Qed.

Lemma get_dict_set_cookie c jar :
  get_dict (set_cookie c jar)
  = <[cookie_name c := stored_value (cookie_value c)]> (get_dict jar).
Proof.
  unfold set_cookie. cbv zeta. rewrite get_dict_snoc. cbn [cookie_name cookie_value].
  apply map_eq. intros k.
  destruct (decide (cookie_name c = k)) as [Hk|Hk].
  - subst k. now rewrite !lookup_insert_eq.
  - rewrite !lookup_insert_ne by exact Hk. apply get_dict_filter.
    intros c' Hc'. unfold same_cookie. cbn [cookie_name].
    destruct (String.eqb_spec (cookie_name c) (cookie_name c')) as [He|He];
      [congruence | reflexivity].
Qed.

Lemma get_dict_add_list l : forall jar,
  get_dict (foldl (fun j (kv : string * string) =>
                     set_cookie {| cookie_name := kv.1; cookie_value := kv.2;
                                   cookie_domain := ""; cookie_path := "/" |} j) jar l)
  = foldl (fun m (kv : string * string) => <[kv.1 := stored_value kv.2]> m)
          (get_dict jar) l.
Proof.
  induction l as [|kv l IH]; intros jar; [reflexivity|].
  cbn. rewrite IH, get_dict_set_cookie. reflexivity.
Qed.

Lemma foldl_insert_union (f : string -> string) (l : list (string * string)) :
  forall m : gmap string string,
  NoDup l.*1 ->
  foldl (fun m (kv : string * string) => <[kv.1 := f kv.2]> m) m l
  = (f <$> list_to_map l) ∪ m.
Proof.
  induction l as [|[k v] l IH]; intros m Hnd; cbn.
  - now rewrite fmap_empty, (left_id_L ∅ (∪)).
  - inversion Hnd as [|? ? Hk Hnd']; subst. rewrite IH by exact Hnd'.
    rewrite fmap_insert, <- insert_union_l. symmetry. apply insert_union_r.
    rewrite lookup_fmap. now rewrite (not_elem_of_list_to_map_1 _ _ Hk).
Qed.

(** The cookies of a jar filled from a dictionary are, name by name, the
    stored values of the dictionary. *)
Lemma get_dict_add_empty (cookie_dict : gmap string string) :
  get_dict (add_dict_to_cookiejar [] cookie_dict) = stored_value <$> cookie_dict.
Proof.
  unfold add_dict_to_cookiejar. rewrite get_dict_add_list.
  rewrite foldl_insert_union by apply NoDup_fst_map_to_list.
  cbn. rewrite (right_id_L ∅ (∪)). now rewrite list_to_map_to_list.
Qed.






(** *** The invariant is established and kept *)

Lemma init_headers_no_auth av ua :
  init_headers av ua !! lower "Authorization" = None
  /\ init_headers av ua !! lower "x-pm-uid" = None.
Proof.
  unfold init_headers, default_headers, hset.
  split; rewrite !lookup_insert_ne by (vm_compute; discriminate); apply lookup_empty.
Qed.

(** The expected headers, key by key. *)
Lemma expected_headers_lookup s k :
  (is_None (UID s) = false -> exists t, AccessToken s = JStr t) ->
  expected_headers s !! k
  = if is_None (UID s) then init_headers (appversion s) (user_agent s) !! k
    else if String.eqb k (lower "Authorization") then Some (default JNull
                                                       (match bearer (AccessToken s) with
                                                        | Ok b => Some b | Raise _ => None
                                                        end))
    else if String.eqb k (lower "x-pm-uid") then Some (UID s)
    else init_headers (appversion s) (user_agent s) !! k.
Proof.
  intros Htok. unfold expected_headers. destruct (is_None (UID s)) eqn:Hn; [reflexivity|].
  destruct (Htok eq_refl) as [t Ht]. rewrite Ht. cbn [bearer default]. unfold hset.
  destruct (String.eqb_spec k (lower "Authorization")) as [->|Ha].
  - apply lookup_insert_eq.
  - rewrite lookup_insert_ne by congruence.
    destruct (String.eqb_spec k (lower "x-pm-uid")) as [->|Hu].
    + apply lookup_insert_eq.
    + now rewrite lookup_insert_ne by congruence.
Qed.


Lemma frame_wf s s' : frame s s' -> session_wf s -> session_wf s'.
Proof.
  intros Hf [Htok Hh].
  assert (He : expected_headers s' = expected_headers s).
  { unfold expected_headers, UID, AccessToken, sd_get.
    now rewrite (fr_session_data _ _ Hf), (fr_appversion _ _ Hf), (fr_user_agent _ _ Hf). }
  split.
  - unfold UID, AccessToken, sd_get. rewrite (fr_session_data _ _ Hf). exact Htok.
  - intros k H1 H2. rewrite He, (fr_headers _ _ Hf) by assumption. now apply Hh.
Qed.

Lemma api_request_wf endpoint jsondata additional_headers method params skip st r st' :
  api_request endpoint jsondata additional_headers method params skip st = (r, st') ->
  session_wf (sess st) -> session_wf (sess st').
Proof.
  intros H. destruct (keeps_api_request _ _ _ _ _ _ _ _ _ H) as [Hf _].
  now apply frame_wf.
Qed.

(** On a session that satisfies the invariant the two authentication
    headers are there exactly when a UID is stored. *)
Lemma wf_auth_headers s :
  session_wf s ->
  if is_None (UID s)
  then hget "Authorization" (headers s) = None /\ hget "x-pm-uid" (headers s) = None
  else (exists t, AccessToken s = JStr t
          /\ hget "Authorization" (headers s) = Some (JStr ("Bearer " ++ t)))
       /\ hget "x-pm-uid" (headers s) = Some (UID s).
Proof.
  intros [Htok Hh]. destruct auth_keys_not_hv as (K1 & K2 & K3 & K4). unfold hget.
  rewrite (Hh _ K1 K2), (Hh _ K3 K4), !(expected_headers_lookup _ _ Htok).
  destruct (is_None (UID s)) eqn:Hn; [apply init_headers_no_auth|].
  destruct (Htok eq_refl) as [t Ht]. split.
  - exists t. split; [exact Ht|]. rewrite Ht. reflexivity.
  - reflexivity.
Qed.

(** Clearing the credentials and both headers gives a session that
    satisfies the invariant. *)
Lemma cleared_wf s :
  session_wf s ->
  session_wf (set_session_data ∅
                (set_headers (hdel "x-pm-uid" (hdel "Authorization" (headers s))) s)).
Proof.
  intros [Htok Hh]. split; [discriminate|]. intros k H1 H2. cbn. unfold hdel.
  change (expected_headers (set_session_data ∅ _))
    with (init_headers (appversion s) (user_agent s)).
  destruct (init_headers_no_auth (appversion s) (user_agent s)) as [Ia Iu].
  destruct (decide (k = lower "x-pm-uid")) as [->|Hu].
  { now rewrite lookup_delete_eq, Iu. }
  rewrite lookup_delete_ne by congruence.
  destruct (decide (k = lower "Authorization")) as [->|Ha].
  { now rewrite lookup_delete_eq, Ia. }
  rewrite lookup_delete_ne by congruence.
  rewrite (Hh _ H1 H2), (expected_headers_lookup _ _ Htok).
  destruct (is_None (UID s)); [reflexivity|].
  destruct (String.eqb_spec k (lower "Authorization")); [congruence|].
  destruct (String.eqb_spec k (lower "x-pm-uid")); [congruence|]. reflexivity.
Qed.

Lemma logout_wf st r st' :
  logout st = (r, st') -> session_wf (sess st) -> session_wf (sess st').
Proof.
  rewrite logout_unfold. intros H Hwf.
  destruct (has_session_data (sess st)); [|inversion H; subst; exact Hwf].
  unfold logout_request in H.
  destruct (api_request _ _ _ _ _ _ st) as [[x|e] st1] eqn:Hreq;
    pose proof (api_request_wf _ _ _ _ _ _ _ _ _ Hreq Hwf) as Hwf1;
    [|inversion H; subst; exact Hwf1].
  pose proof (wf_auth_headers _ Hwf1) as Hah.
  unfold bind, del_header, get_sess, modify_sess in H. cbn in H.
  destruct (is_None (UID (sess st1))).
  - destruct Hah as [Ha _]. rewrite Ha in H. inversion H; subst. exact Hwf1.
  - destruct Hah as [(t & _ & Ha) Hu]. rewrite Ha in H. cbn in H.
    unfold hget, hdel in *.
    rewrite lookup_delete_ne in H by (vm_compute; discriminate).
    rewrite Hu in H. cbn in H. inversion H; subst. exact (cleared_wf (sess st1) Hwf1).
Qed.

(** Storing credentials with their two headers, over a session that has
    none, gives a session that satisfies the invariant. *)
Lemma stored_wf s sd t :
  session_wf s -> session_data s = ∅ ->
  default JNull (sd !! "AccessToken") = JStr t ->
  is_None (default JNull (sd !! "UID")) = false ->
  session_wf (set_headers (hset "Authorization" (JStr ("Bearer " ++ t))
                             (hset "x-pm-uid" (default JNull (sd !! "UID")) (headers s)))
                (set_session_data sd s)).
Proof.
  intros [Htok Hh] Hsd Hat Hn.
  assert (Htok' : is_None (UID (set_session_data sd s)) = false ->
                  exists t, AccessToken (set_session_data sd s) = JStr t)
    by (intros _; exists t; exact Hat).
  split; [exact Htok'|]. intros k H1 H2.
  change (expected_headers (set_headers _ _))
    with (expected_headers (set_session_data sd s)).
  rewrite (expected_headers_lookup _ _ Htok').
  change (UID (set_session_data sd s)) with (default JNull (sd !! "UID")).
  change (AccessToken (set_session_data sd s)) with (default JNull (sd !! "AccessToken")).
  rewrite Hn, Hat. cbn [bearer default headers set_headers]. unfold hset.
  destruct (String.eqb_spec k (lower "Authorization")) as [->|Ha].
  { apply lookup_insert_eq. }
  rewrite lookup_insert_ne by congruence.
  destruct (String.eqb_spec k (lower "x-pm-uid")) as [->|Hu].
  { apply lookup_insert_eq. }
  rewrite lookup_insert_ne by congruence.
  rewrite (Hh _ H1 H2). unfold expected_headers, UID, sd_get. rewrite Hsd, lookup_empty.
  reflexivity.
Qed.

Lemma authenticate_wf username password st r st' :
  authenticate username password st = (Ok r, st') ->
  session_wf (sess st) -> session_wf (sess st').
Proof.
  intros H Hwf. unfold authenticate in H. apply bind_inv in H.
  destruct H as [([usr auth] & st1 & Hex & Hfin)|(e & _ & He)]; [|discriminate].
  unfold authenticate_exchange in Hex. apply bind_inv in Hex.
  destruct Hex as [(u & st0 & Hlo & Hsrp)|(e & _ & He)]; [|discriminate].
  pose proof (logout_wf _ _ _ Hlo Hwf) as Hwf0.
  destruct (logout_returns _ _ _ Hlo) as (Hsd0 & _).
  destruct (keeps_authenticate_srp _ _ _ _ _ Hsrp) as [Hf _].
  pose proof (frame_wf _ _ Hf Hwf0) as Hwf1.
  assert (Hsd1 : session_data (sess st1) = ∅)
    by (rewrite (fr_session_data _ _ Hf); exact Hsd0).
  clear Hlo Hsrp Hf Hwf Hwf0 Hsd0.
  unfold authenticate_finish, bind, lift, modify_sess, get_sess, set_header, ret in Hfin.
  destruct (api_contains "ServerProof" auth) as [has|]; [|discriminate].
  destruct (negb has); [discriminate|].
  destruct (api_subscript auth "ServerProof"); [|discriminate].
  destruct (b64decode_json _); [|discriminate].
  destruct (negb (authenticated _)); [discriminate|].
  destruct (api_subscript auth "UID") as [uid|]; [|discriminate].
  destruct (api_subscript auth "AccessToken") as [access|]; [|discriminate].
  destruct (api_subscript auth "RefreshToken") as [rt|]; [|discriminate].
  destruct (api_subscript auth "PasswordMode") as [pm|]; [|discriminate].
  destruct (api_subscript auth "Scope") as [sc|]; [|discriminate].
  destruct (split_scope sc) as [scl|]; [|discriminate].
  cbn in Hfin.
  set (sd := <["UID" := uid]> _) in Hfin.
  assert (Hu : default JNull (sd !! "UID") = uid)
    by (subst sd; now rewrite lookup_insert_eq).
  assert (Ha : default JNull (sd !! "AccessToken") = access).
  { subst sd. rewrite lookup_insert_ne by discriminate. now rewrite lookup_insert_eq. }
  unfold UID, AccessToken, sd_get in Hfin. cbn in Hfin. rewrite Hu, Ha in Hfin.
  destruct (is_None uid) eqn:Hn; cbn in Hfin.
  - inversion Hfin; subst st'. cbn. destruct Hwf1 as [Htok Hh]. split.
    + unfold UID, sd_get. cbn. rewrite Hu, Hn. discriminate.
    + intros k H1 H2. cbn. rewrite (Hh _ H1 H2).
      unfold expected_headers, UID, sd_get. cbn. rewrite Hu, Hn, Hsd1, lookup_empty.
      reflexivity.
  - destruct access as [| | |t| |]; cbn in Hfin; try discriminate.
    inversion Hfin; subst st'. cbn. rewrite <- Hu.
    apply (stored_wf (sess st1) sd t Hwf1 Hsd1 Ha). now rewrite Hu.
Qed.


(** What [load] returns, when it returns. *)
Lemma load_returns d log_dir_path cache_dir_path tls_pinning timeout proxies s :
  load d log_dir_path cache_dir_path tls_pinning timeout proxies = Ok s ->
  api_url s = dump_api_url d /\ appversion s = dump_appversion d
  /\ user_agent s = dump_user_agent d
  /\ session_data s = dump_session_data d
  /\ cookies s = add_dict_to_cookiejar [] (default ∅ (dump_cookies d))
  /\ allow_alternative_routes s = None
  /\ force_skip_alternative_routing s = false
  /\ clientsecret s = JNull
  /\ captcha_token s = None.
Proof.
  unfold load, init. destruct (truthy proxies && tls_pinning); [discriminate|].
  cbv zeta. destruct (negb (is_None _)).
  - destruct (bearer _) as [b|]; [|discriminate].
    intros H. inversion H; subst. cbn. repeat split; reflexivity.
  - intros H. inversion H; subst. cbn. repeat split; reflexivity.
Qed.









(** ** More on [api_request] *)

Lemma make_request_first allow v endpoint jsondata additional_headers params st :
  make_request v (request_params_of allow endpoint jsondata additional_headers params st)
    (with_metadata (snd (url_choice allow st)) st)
  = (match first_outcome allow v endpoint jsondata additional_headers params st with
     | Returns r => Ok r
     | out => Raise (default UnknownConnectionError (mapped_error out))
     end,
     after_first_request allow v endpoint jsondata additional_headers params st).
Proof.
  unfold make_request, first_outcome, after_first_request, first_request. cbn.
  destruct (fct _ _) as [out w]. destruct out; reflexivity.
Qed.

(** [fetch_response] on a configured session with a known method. *)
Lemma fetch_response_configured probe endpoint jsondata additional_headers method params
    skip st allow v :
  allow_alternative_routes (sess st) = Some allow ->
  select_fct method jsondata = Some v ->
  fetch_response probe endpoint jsondata additional_headers method params skip st
  = let kw := request_params_of allow endpoint jsondata additional_headers params st in
    let st1 := after_first_request allow v endpoint jsondata additional_headers params st in
    match first_outcome allow v endpoint jsondata additional_headers params st with
    | Returns r => (Ok (Some r), st1)
    | ExcOther => (Raise UnknownConnectionError, st1)
    | out =>
        let e := default UnknownConnectionError (mapped_error out) in
        if negb allow || skip || force_skip_alternative_routing (sess st)
        then (Raise e, st1)
        else
          match probe st1 with
          | (Raise e', st2) => (Raise e', st2)
          | (Ok true, st2) => (Ok None, st2)
          | (Ok false, st2) =>
              match try_with_alt_routing v kw st2 with
              | (Ok response, st3) => (Ok (Some response), st3)
              | (Raise e', st3) => (Raise e', st3)
              end
          end
    end.
Proof.
  intros Ha Hv. unfold fetch_response, bind, get_sess. cbv beta iota. rewrite Ha, Hv.
  pose proof (make_request_first allow v endpoint jsondata additional_headers params st)
    as Hm.
  unfold request_params_of, url_choice in *.
  destruct (try_original_url _ _ _) as [orig m] eqn:Ht. cbn [snd] in Hm.
  cbv zeta. rewrite Hm.
  destruct (first_outcome _ _ _ _ _ _ _); reflexivity.
Qed.

Lemma check_code_env response st r st' :
  check_code response st = (r, st') ->
  net_log st' = net_log st /\ world st' = world st /\ metadata st' = metadata st.
Proof.
  unfold check_code, bind, lift, modify_sess, raise, ret.
  destruct (subscript response "Code") as [code|]; [|intros H; now inversion H].
  destruct (is_success_code code); [intros H; now inversion H|].
  destruct (json_eqb code (JNum 9001)).
  - destruct (subscript response "Details") as [details|]; [|intros H; now inversion H].
    destruct (subscript details "HumanVerificationToken");
      intros H; now inversion H.
  - destruct (json_eqb code (JNum 12087)); intros H; now inversion H.
Qed.

(** Decoding the response is no network event. *)
Lemma decode_response_env response st r st' :
  decode_response response st = (r, st') ->
  net_log st' = net_log st /\ world st' = world st /\ metadata st' = metadata st.
Proof.
  unfold decode_response. destruct (body response) as [j|].
  - destruct (check_code j st) as [[u|e] st1] eqn:Hc;
      pose proof (check_code_env _ _ _ _ Hc) as He.
    + intros H. inversion H; subst. exact He.
    + destruct e; try (intros H; inversion H; subst; exact He).
      destruct (negb _); intros H; inversion H; subst; exact He.
  - destruct (negb _); intros H; now inversion H.
Qed.

(** X1: on a configured session, a method that is none of get, post, put,
    delete and patch makes [api_request] raise
    [ValueError("Unknown method: ...")] with the machine unchanged: nothing
    was sent and the route cache was not consulted. *)
Theorem api_request_unknown_method endpoint jsondata additional_headers m params skip st
    allow :
  allow_alternative_routes (sess st) = Some allow ->
  verb_of_method m = None ->
  api_request endpoint jsondata additional_headers (Some m) params skip st
  = (Raise (ValueError ("Unknown method: " ++ m)), st).
Proof.
  intros Ha Hm. unfold api_request, api_request_with. apply bind_raise.
  unfold fetch_response, bind, get_sess. cbv beta iota. rewrite Ha. cbn [select_fct].
  rewrite Hm. reflexivity.
Qed.

(** X2: on a configured session the first network event of a call of
    [api_request] is one request with the chosen verb (GET without a body
    and POST with one when no method is given), the endpoint appended to
    the API URL when the route cache answers to try the original URL, with
    certificate verification on, and appended to the cached alternative
    URL with verification off otherwise; the body, the parameters and the
    timeout are passed as they are. *)
Theorem api_request_first_request endpoint jsondata additional_headers method params skip
    st allow v r st' :
  allow_alternative_routes (sess st) = Some allow ->
  select_fct method jsondata = Some v ->
  api_request endpoint jsondata additional_headers method params skip st = (r, st') ->
  (method = None -> v = if is_None jsondata then GET else POST)
  /\ exists req new,
       net_log st' = (net_log st ++ NetHttp req :: new)%list
       /\ req_verb req = v
       /\ req_url req
          = (if fst (url_choice allow st) then api_url (sess st)
             else get_alternative_url (snd (url_choice allow st))) ++ endpoint
       /\ req_verify req = fst (url_choice allow st)
       /\ req_headers req = merge_headers (headers (sess st)) additional_headers
       /\ req_json req = jsondata
       /\ req_params req = params
       /\ req_timeout req = timeout (sess st).
Proof.
  intros Ha Hv H. split.
  { intros ->. cbn in Hv. destruct (is_None jsondata); congruence. }
  exists (first_request allow v endpoint jsondata additional_headers params st).
  assert (Hreq : forall A (x : A) st2,
             extends additional_headers
               (after_first_request allow v endpoint jsondata additional_headers params st)
               st2 ->
             exists new,
               net_log st2
               = (net_log st ++ NetHttp (first_request allow v endpoint jsondata
                                           additional_headers params st) :: new)%list).
  { intros A _ st2 (_ & new & Hl & _). exists new. rewrite Hl. cbn.
    now rewrite <- app_assoc. }
  assert (Hlog : exists new,
             net_log st'
             = (net_log st ++ NetHttp (first_request allow v endpoint jsondata
                                         additional_headers params st) :: new)%list).
  { apply (Hreq unit tt).
    unfold api_request, api_request_with in H. apply bind_inv in H.
    assert (Hkw : kw_headers (request_params_of allow endpoint jsondata additional_headers
                                params st) = additional_headers
                  \/ kw_headers (request_params_of allow endpoint jsondata
                                   additional_headers params st) = None).
    { left. unfold request_params_of. destruct (url_choice allow st). reflexivity. }
    assert (Hfetch : forall x st1,
               fetch_response _is_api_reacheable endpoint jsondata additional_headers
                 method params skip st = (x, st1) ->
               extends additional_headers
                 (after_first_request allow v endpoint jsondata additional_headers params
                    st) st1).
    { intros x st1. rewrite (fetch_response_configured _ _ _ _ _ _ _ _ _ _ Ha Hv).
      cbv zeta.
      set (st0 := after_first_request _ _ _ _ _ _ _).
      assert (Hfb : forall e,
                 (if negb allow || skip || force_skip_alternative_routing (sess st)
                  then (Raise e, st0)
                  else match _is_api_reacheable st0 with
                       | (Raise e', st2) => (Raise e', st2)
                       | (Ok true, st2) => (Ok None, st2)
                       | (Ok false, st2) =>
                           match try_with_alt_routing v
                                   (request_params_of allow endpoint jsondata
                                      additional_headers params st) st2 with
                           | (Ok response, st3) => (Ok (Some response), st3)
                           | (Raise e', st3) => (Raise e', st3)
                           end
                       end) = (x, st1) ->
                 extends additional_headers st0 st1).
      { intros e. destruct (negb allow || skip || _).
        - intros E. inversion E; subst. apply extends_refl.
        - destruct (_is_api_reacheable st0) as [[b|e'] st2] eqn:Hp;
            pose proof (keeps_is_api_reacheable additional_headers _ _ _ Hp) as H2.
          + destruct b; [intros E; inversion E; subst; exact H2|].
            destruct (try_with_alt_routing _ _ st2) as [[resp|e'] st3] eqn:Halt;
              intros E; inversion E; subst;
              (eapply extends_trans; [exact H2|];
               eapply keeps_try_with_alt_routing; [exact Hkw | exact Halt]).
          + intros E. inversion E; subst. exact H2. }
      destruct (first_outcome _ _ _ _ _ _ _); cbn [mapped_error default];
        try apply Hfb; intros E; inversion E; subst; apply extends_refl. }
    destruct H as [(resp & st1 & Hf & Hd)|(e & Hf & _)].
    - eapply extends_trans; [eapply Hfetch; exact Hf|].
      destruct resp as [resp|].
      + eapply keeps_decode_response; exact Hd.
      + inversion Hd; subst. apply extends_refl.
    - eapply Hfetch; exact Hf. }
  destruct Hlog as [new Hl]. exists new. split; [exact Hl|].
  unfold first_request, request_of, request_params_of.
  destruct (url_choice allow st) as [orig m]. cbn. repeat split; reflexivity.
Qed.

(** X3: when the first request returns a response, or the transport
    raises something unforeseen, or alternative routing is disabled,
    skipped by the flag or force-skipped, the call performs that one
    request and nothing else on the network; an exception of the
    transport is raised as [NewConnectionError] (connection errors,
    connect timeouts included), [ConnectionTimeOutError], [TLSPinningError]
    or [UnknownConnectionError]. *)
Theorem api_request_single_request endpoint jsondata additional_headers method params skip
    st allow v r st' :
  allow_alternative_routes (sess st) = Some allow ->
  select_fct method jsondata = Some v ->
  falls_back allow skip (force_skip_alternative_routing (sess st))
    (first_outcome allow v endpoint jsondata additional_headers params st) = false ->
  api_request endpoint jsondata additional_headers method params skip st = (r, st') ->
  net_log st'
  = (net_log st
     ++ [NetHttp (first_request allow v endpoint jsondata additional_headers params st)])%list
  /\ match mapped_error
             (first_outcome allow v endpoint jsondata additional_headers params st) with
     | Some e => r = Raise e
     | None => True
     end.
Proof.
  intros Ha Hv Hfb H. unfold api_request, api_request_with in H.
  assert (Hf : forall x st1,
             fetch_response _is_api_reacheable endpoint jsondata additional_headers
               method params skip st = (x, st1) ->
             st1 = after_first_request allow v endpoint jsondata additional_headers params
                     st
             /\ match mapped_error (first_outcome allow v endpoint jsondata
                                      additional_headers params st) with
                | Some e => x = Raise e
                | None => exists resp, x = Ok (Some resp)
                end).
  { intros x st1. rewrite (fetch_response_configured _ _ _ _ _ _ _ _ _ _ Ha Hv).
    cbv zeta. unfold falls_back in Hfb.
    destruct (first_outcome _ _ _ _ _ _ _) eqn:Ho; cbn [mapped_error default];
      try (intros E; inversion E; subst; eauto; fail);
      (assert (Hc : negb allow || skip || force_skip_alternative_routing (sess st) = true)
         by (destruct allow, skip, (force_skip_alternative_routing (sess st));
             cbn in *; congruence));
      rewrite Hc; intros E; inversion E; subst; auto. }
  apply bind_inv in H. destruct H as [(resp & st1 & Hfe & Hd)|(e & Hfe & He)].
  - destruct (Hf _ _ Hfe) as [-> Hx].
    destruct (mapped_error _) eqn:Hm; [discriminate|].
    split; [|exact I]. destruct resp as [resp|].
    + apply decode_response_env in Hd. destruct Hd as [Hl _]. rewrite Hl. reflexivity.
    + inversion Hd; subst. reflexivity.
  - destruct (Hf _ _ Hfe) as [-> Hx]. split; [reflexivity|].
    destruct (mapped_error _).
    + inversion Hx; subst. reflexivity.
    + destruct Hx as [resp Hx]. discriminate.
Qed.

(** X4: with alternative routing enabled, when the first request fails
    at the transport and the probe of [/tests/ping] then succeeds, the
    local variable [response] was never bound: the call raises
    [UnboundLocalError] at line 270, whatever the request was. *)
Theorem api_request_unbound_response endpoint jsondata additional_headers method params st
    v st2 :
  allow_alternative_routes (sess st) = Some true ->
  force_skip_alternative_routing (sess st) = false ->
  select_fct method jsondata = Some v ->
  falls_back true false false
    (first_outcome true v endpoint jsondata additional_headers params st) = true ->
  _is_api_reacheable
    (after_first_request true v endpoint jsondata additional_headers params st)
  = (Ok true, st2) ->
  api_request endpoint jsondata additional_headers method params false st
  = (Raise UnboundLocalError, st2).
Proof.
  intros Ha Hfs Hv Hfb Hp. unfold api_request, api_request_with.
  assert (Hf : fetch_response _is_api_reacheable endpoint jsondata additional_headers
                 method params false st = (Ok None, st2)).
  { rewrite (fetch_response_configured _ _ _ _ _ _ _ _ _ _ Ha Hv). cbv zeta.
    rewrite Hfs. cbn [negb orb]. rewrite Hp.
    destruct (first_outcome _ _ _ _ _ _ _); cbn in Hfb; try discriminate; reflexivity. }
  rewrite (bind_ok _ _ _ _ _ Hf). reflexivity.
Qed.

(** ** The application envelope *)








(** ** The human-verification token *)

(** X9: the token set with the setter is the token the getter returns,
    the deleter brings the getter back to [(None, None)] and may be called
    when no token is set; neither touches any other header (the
    authentication headers among them) nor the credentials. *)
Theorem human_verification_token_roundtrip (newtuplevalue : json * json) s :
  human_verification_token (set_human_verification_token newtuplevalue s) = newtuplevalue
  /\ human_verification_token (del_human_verification_token s) = (JNull, JNull)
  /\ (hget "X-PM-Human-Verification-Token" (headers s) = None ->
      hget "X-PM-Human-Verification-Token-Type" (headers s) = None ->
      headers (del_human_verification_token s) = headers s)
  /\ (forall k, k <> hv_type_key -> k <> hv_key ->
      headers (set_human_verification_token newtuplevalue s) !! k = headers s !! k
      /\ headers (del_human_verification_token s) !! k = headers s !! k)
  /\ session_data (set_human_verification_token newtuplevalue s) = session_data s
  /\ session_data (del_human_verification_token s) = session_data s.
Proof.
  destruct newtuplevalue as [ty va].
  unfold human_verification_token, set_human_verification_token,
    del_human_verification_token, hget, hset, hdel. cbn.
  split; [|split; [|split; [|split; [|split; reflexivity]]]].
  - rewrite lookup_insert_ne by (vm_compute; discriminate).
    now rewrite !lookup_insert_eq.
  - rewrite lookup_delete_ne by (vm_compute; discriminate).
    now rewrite !lookup_delete_eq.
  - intros H1 H2. rewrite (delete_id _ _ H2). now apply delete_id.
  - intros k H1 H2. split.
    + rewrite !lookup_insert_ne; auto.
    + rewrite !lookup_delete_ne; auto.
Qed.

(** ** More on the alternative routes *)

Lemma query_all_env d hosts : forall st rs st',
  query_all hosts d st = (rs, st') ->
  sess st' = sess st /\ metadata st' = metadata st
  /\ exists new, net_log st' = (net_log st ++ new)%list /\ Forall is_doh new.
Proof.
  induction hosts as [|h hs IH]; intros st rs st' H; cbn in H.
  - inversion H; subst. repeat split. exists []. split; [now rewrite app_nil_r|constructor].
  - unfold query_for_dns_data in H. destruct (doh_get h d (world st)) as [out w].
    set (st1 := log_event (NetDoh h d) (with_world w st)) in H.
    assert (E : exists r, (let '(r0, st2) :=
                             match out with
                             | DohReturns status c =>
                                 (if status =? 404 then None else Some c, st1)
                             | DohRaises => (None, st1)
                             end in
                           let '(rs0, st3) := query_all hs d st2 in (r0 :: rs0, st3))
                          = (let '(rs0, st3) := query_all hs d st1 in (r :: rs0, st3)))
      by (destruct out; eexists; reflexivity).
    destruct E as [r E]. rewrite E in H. clear E.
    destruct (query_all hs d st1) as [rs' st2] eqn:H2. inversion H; subst.
    destruct (IH _ _ _ H2) as (Hs & Hm & new & Hl & Hd).
    split; [rewrite Hs; reflexivity|]. split; [rewrite Hm; reflexivity|].
    exists (NetDoh h d :: new). split.
    + rewrite Hl. cbn. now rewrite <- app_assoc.
    + constructor; [exact I | exact Hd].
Qed.

(** The resolution leaves the session and the route cache alone, and all
    it does on the network are DoH queries. *)
Lemma resolve_names_env names : forall routes st r st',
  resolve_names names routes st = (r, st') ->
  sess st' = sess st /\ metadata st' = metadata st
  /\ exists new, net_log st' = (net_log st ++ new)%list /\ Forall is_doh new.
Proof.
  assert (R : forall st, sess st = sess st /\ metadata st = metadata st
                /\ exists new, net_log st = (net_log st ++ new)%list /\ Forall is_doh new).
  { intros st. repeat split. exists []. split; [now rewrite app_nil_r|constructor]. }
  induction names as [|n rest IH]; intros routes st r st' H; cbn in H.
  - inversion H; subst. apply R.
  - destruct (generate_dns_message n (world st)) as [[q d] w].
    destruct DNS_HOSTS as [|h0 hs0].
    + inversion H; subst. apply (R (with_world w st)).
    + destruct (query_all (h0 :: hs0) d (with_world w st)) as [rs st1] eqn:Hq.
      pose proof (query_all_env _ _ _ _ _ Hq) as E1. cbn in E1.
      assert (K : forall r st', resolve_names rest r st1 = st' ->
                  sess st'.2 = sess st /\ metadata st'.2 = metadata st
                  /\ exists new, net_log st'.2 = (net_log st ++ new)%list
                       /\ Forall is_doh new).
      { intros r0 [x st2] Hr. destruct (IH _ _ _ _ Hr) as (Hs & Hm & n2 & Hl2 & Hd2).
        destruct E1 as (Hs1 & Hm1 & n1 & Hl1 & Hd1). cbn.
        split; [congruence|]. split; [congruence|].
        exists (n1 ++ n2)%list. split; [rewrite Hl2, Hl1; now rewrite <- app_assoc|].
        now apply Forall_app. }
      destruct (non_empty_responses rs) as [|c cs].
      * apply (K _ _ H).
      * destruct (extract_each _ _ _) as [routes'|e].
        -- destruct (size routes').
           ++ apply (K _ _ H).
           ++ inversion H; subst. exact E1.
        -- inversion H; subst. exact E1.
Qed.

(** The request that gave the response of the loop. *)
Lemma alt_loop_success v routes : forall kw st r st',
  alt_loop v kw routes st = (Some r, st') ->
  exists route req prefix w,
    In route routes
    /\ net_log st' = (prefix ++ [NetHttp req])%list
    /\ fct req w = (Returns r, world st')
    /\ req_verb req = v
    /\ req_url req = ("https://" ++ route) ++ kw_endpoint kw
    /\ req_verify req = kw_verify kw
    /\ metadata st' = store_alternative_route ("https://" ++ route) (metadata st)
    /\ (tls_pinning_enabled (sess st) = true ->
        req_adapters req !! ("https://" ++ route) = Some (TLSPinningAdapter true)).
Proof.
  induction routes as [|route rest IH]; intros kw st r st' H; cbn in H; [discriminate|].
  set (st1 := if tls_pinning_enabled (sess st)
              then mount ("https://" ++ route) (TLSPinningAdapter true) st else st) in *.
  assert (Hm1 : metadata st1 = metadata st)
    by (subst st1; destruct (tls_pinning_enabled (sess st)); reflexivity).
  assert (Ht1 : tls_pinning_enabled (sess st1) = tls_pinning_enabled (sess st))
    by (subst st1; destruct (tls_pinning_enabled (sess st)) eqn:E; cbn; congruence).
  destruct (make_request v (kw_with_url ("https://" ++ route) kw) st1)
    as [[resp|e] st2] eqn:Hm.
  - inversion H; subst r st'. clear H.
    unfold make_request in Hm.
    destruct (fct _ (world st1)) as [out w'] eqn:Hf.
    destruct out; inversion Hm; subst. clear Hm.
    exists route, (request_of v (kw_with_url ("https://" ++ route) kw) (sess st1)),
      (net_log st1), (world st1).
    split; [now left|]. split; [reflexivity|]. split; [exact Hf|].
    split; [reflexivity|]. split; [reflexivity|]. split; [reflexivity|].
    split; [cbn; now rewrite Hm1|].
    intros Htls. subst st1. rewrite Htls. cbn. apply lookup_insert_eq.
  - pose proof (make_request_metadata _ _ _ _ _ Hm) as Hm2.
    pose proof (make_request_sess _ _ _ _ _ Hm) as Hs2.
    destruct (IH _ _ _ _ H) as (rt & req & prefix & w & Hin & Hl & Hf & Hv & Hu & Hy & Hmeta
                                   & Had).
    exists rt, req, prefix, w. split; [now right|].
    repeat (split; [assumption|]). split.
    + rewrite Hmeta, Hm2, Hm1. reflexivity.
    + intros Htls. apply Had. now rewrite Hs2, Ht1.
Qed.

(** X10: a response the alternative-routing retry returns has a status
    outside 400 to 599; it is what the transport answered to the last
    request of the log, sent with [verify=False] to the endpoint on
    [https://<route>] for one of the routes DoH resolved, and that URL is
    what the route cache now stores.  With TLS pinning enabled, the
    pinning adapter with the alternative pins is mounted for that URL when
    the request is sent. *)
Theorem try_with_alt_routing_returns v kw st r st' :
  try_with_alt_routing v kw st = (Ok r, st') ->
  resp_ok r = true
  /\ exists routes route req prefix w,
       fst (get_alternative_routes_from_dns st) = Ok routes
       /\ route ∈ routes
       /\ net_log st' = (prefix ++ [NetHttp req])%list
       /\ fct req w = (Returns r, world st')
       /\ req_verb req = v
       /\ req_url req = ("https://" ++ route) ++ kw_endpoint kw
       /\ req_verify req = false
       /\ metadata st' = store_alternative_route ("https://" ++ route) (metadata st)
       /\ (tls_pinning_enabled (sess st) = true ->
           req_adapters req !! ("https://" ++ route) = Some (TLSPinningAdapter true)).
Proof.
  unfold try_with_alt_routing. intros H. apply bind_inv in H.
  destruct H as [(routes & st1 & Hdns & H)|(e & _ & He)]; [|discriminate].
  unfold try_alt_routes in H.
  destruct (alt_loop _ _ _ st1) as [[resp|] st2] eqn:Hl; cbn in H; [|discriminate].
  destruct (resp_ok resp) eqn:Hok; [|discriminate]. inversion H; subst. clear H.
  split; [exact Hok|].
  destruct (alt_loop_success _ _ _ _ _ _ Hl)
    as (route & req & prefix & w & Hin & Hlog & Hf & Hv & Hu & Hy & Hmeta & Had).
  assert (Henv : sess st1 = sess st /\ metadata st1 = metadata st).
  { unfold get_alternative_routes_from_dns in Hdns. destruct dns_available.
    - destruct (resolve_names_env _ _ _ _ _ Hdns) as (Hs & Hm & _). auto.
    - discriminate. }
  destruct Henv as [Hs Hm].
  exists routes, route, req, prefix, w. rewrite Hdns.
  split; [reflexivity|]. split.
  { apply elem_of_elements. now apply list_elem_of_In. }
  repeat (split; [assumption|]). split; [now rewrite <- Hm|].
  rewrite <- Hs. exact Had.
Qed.

(** X11: when the DoH resolution ends with no route, the retry sends no
    request to any host: it raises [NetworkError] in the state the
    resolution left, in which the session and the route cache are what
    they were and the log has grown by DoH queries only. *)
Theorem try_with_alt_routing_no_route v kw st st1 :
  get_alternative_routes_from_dns st = (Ok ∅, st1) ->
  try_with_alt_routing v kw st = (Raise (NetworkError "Network error"), st1)
  /\ sess st1 = sess st
  /\ metadata st1 = metadata st
  /\ exists new, net_log st1 = (net_log st ++ new)%list /\ Forall is_doh new.
Proof.
  intros H. split.
  - unfold try_with_alt_routing. rewrite (bind_ok _ _ _ _ _ H).
    unfold try_alt_routes. now rewrite elements_empty.
  - unfold get_alternative_routes_from_dns in H. destruct dns_available; [|discriminate].
    exact (resolve_names_env _ _ _ _ _ H).
Qed.

(** ** The answer section *)

Lemma foldl_last {A B} (f : B -> A) (l : list B) : forall a,
  foldl (fun _ x => f x) a l = match last l with Some x => f x | None => a end.
Proof.
  induction l as [|x l IH]; intros a; [reflexivity|].
  cbn [foldl]. rewrite IH. destruct l as [|y l]; [reflexivity|].
  change (last (x :: y :: l)) with (last (y :: l)).
  destruct (last (y :: l)) eqn:E; [reflexivity|].
  apply last_None in E. discriminate.
Qed.

Lemma append_assoc_s (a b c : string) : (a ++ b) ++ c = a ++ (b ++ c).
Proof. induction a as [|x a IH]; [reflexivity | exact (f_equal (String x) IH)]. Qed.

Lemma rev_string_acc s : forall acc, rev_string s acc = rev_string s "" ++ acc.
Proof.
  induction s as [|c s IH]; intros acc; [reflexivity|].
  change (rev_string (String c s) acc) with (rev_string s (String c acc)).
  change (rev_string (String c s) "") with (rev_string s (String c "")).
  rewrite (IH (String c acc)), (IH (String c "")), append_assoc_s. reflexivity.
Qed.

Lemma rev_string_snoc s c : rev_string (s ++ String c "") "" = String c (rev_string s "").
Proof.
  induction s as [|x s IH]; [reflexivity|].
  change (rev_string (String x s ++ String c "") "")
    with (rev_string (s ++ String c "") (String x "")).
  change (rev_string (String x s) "") with (rev_string s (String x "")).
  rewrite (rev_string_acc (s ++ String c "")), IH, (rev_string_acc s (String x "")).
  reflexivity.
Qed.

Lemma rev_string_involutive s : rev_string (rev_string s "") "" = s.
Proof.
  induction s as [|c s IH]; [reflexivity|].
  change (rev_string (String c s) "") with (rev_string s (String c "")).
  rewrite (rev_string_acc s), rev_string_snoc, IH. reflexivity.
Qed.

Lemma lstrip_id p s :
  match s with EmptyString => True | String c _ => p c = false end -> lstrip p s = s.
Proof. destruct s as [|c s]; cbn; [reflexivity|]. now intros ->. Qed.

(** X12: [__extract_dns_answer] raises on a body that is no DNS message,
    gives the empty set for an empty answer section and otherwise the
    records of the last RRset of the answer, each without its surrounding
    double quotes: a record written as a host name between two quotes
    yields that host name. *)
Theorem extract_dns_answer_spec (query_content : string) (dns_query : DnsQuery) :
  match from_wire_answer dns_query query_content with
  | None => extract_dns_answer query_content dns_query = Raise DNSException
  | Some answer =>
      extract_dns_answer query_content dns_query
      = Ok (match last answer with
            | Some rrset => routes_of_rrset rrset
            | None => ∅
            end)
  end
  /\ (forall rrset h, h ∈ routes_of_rrset rrset <->
                       exists txt, txt ∈ rrset /\ h = strip_by is_quote txt)
  /\ (forall host, unquoted_ends host -> strip_by is_quote (Runs.quoted host) = host).
Proof.
  split; [|split].
  - unfold extract_dns_answer. destruct (from_wire_answer _ _) as [answer|]; [|reflexivity].
    now rewrite foldl_last.
  - intros rrset h. unfold routes_of_rrset. rewrite elem_of_list_to_set.
    rewrite list_elem_of_In, in_map_iff. split.
    + intros (txt & <- & Hin). exists txt. split; [now apply list_elem_of_In|reflexivity].
    + intros (txt & Hin & ->). exists txt. split; [reflexivity|now apply list_elem_of_In].
  - intros host [Hfirst Hlast]. destruct host as [|c host]; [reflexivity|].
    unfold strip_by, Runs.quoted.
    assert (Hq : is_quote (ascii_of_nat 34) = true) by reflexivity.
    cbn [lstrip]. rewrite Hq.
    change (String c host ++ String (ascii_of_nat 34) "")
      with (String c (host ++ String (ascii_of_nat 34) "")).
    cbn [lstrip]. rewrite Hfirst.
    change (String c (host ++ String (ascii_of_nat 34) ""))
      with (String c host ++ String (ascii_of_nat 34) "").
    rewrite rev_string_snoc. cbn [lstrip]. rewrite Hq.
    rewrite (lstrip_id _ _ Hlast). apply rev_string_involutive.
Qed.

(** ** More on [load] and [dump] *)

(** X13: a session [load] returns never has its alternative-routing
    policy set, whatever the dumped session had: force-skip is off, the
    client secret and the captcha token are not restored, and every call
    of [api_request] on it raises the [RuntimeError] of an unset policy
    without touching the network, until the policy is set again. *)
Theorem load_resets_policy d log_dir_path cache_dir_path tls_pinning timeout proxies s :
  load d log_dir_path cache_dir_path tls_pinning timeout proxies = Ok s ->
  allow_alternative_routes s = None
  /\ force_skip_alternative_routing s = false
  /\ clientsecret s = JNull
  /\ captcha_token s = None
  /\ (forall st endpoint jsondata additional_headers method params skip,
        sess st = s ->
        api_request endpoint jsondata additional_headers method params skip st
        = (Raise PolicyNotConfigured, st))
  /\ (forall newvalue,
        allow_alternative_routes (set_enable_alternative_routing newvalue s)
        = Some (truthy newvalue)).
Proof.
  intros H. destruct (load_returns _ _ _ _ _ _ _ H) as (_ & _ & _ & _ & _ & Ha & Hf & Hc & Ht).
  repeat (split; [assumption|]). split.
  - intros st endpoint jsondata additional_headers method params skip Hs.
    unfold api_request, api_request_with. apply bind_raise.
    apply fetch_response_unconfigured. now rewrite Hs.
  - intros newvalue. apply set_enable_alternative_routing_bool.
Qed.


Lemma stored_value_plain v :
  starts_with_quote v && ends_with_quote v = false -> stored_value v = v.
Proof. unfold stored_value. now intros ->. Qed.

(** X15: the dump of a session [load] returns is the dump it was loaded
    from, with an empty cookie dictionary in place of a missing one, and
    with each cookie value as the jar stores it: a value that starts and
    ends with a double quote has lost its backslash-quote pairs.  When no
    cookie value of the dump is of that kind, the cookie dictionary is
    the one of the dump. *)
Theorem load_dump_roundtrip d log_dir_path cache_dir_path tls_pinning timeout proxies s :
  load d log_dir_path cache_dir_path tls_pinning timeout proxies = Ok s ->
  dump s = {| dump_api_url := dump_api_url d;
              dump_appversion := dump_appversion d;
              dump_user_agent := dump_user_agent d;
              dump_cookies := Some (stored_value <$> default ∅ (dump_cookies d));
              dump_session_data := dump_session_data d |}
  /\ (map_Forall (fun _ v => starts_with_quote v && ends_with_quote v = false)
                 (default ∅ (dump_cookies d)) ->
      dump_cookies (dump s) = Some (default ∅ (dump_cookies d))).
Proof.
  intros H. destruct (load_returns _ _ _ _ _ _ _ H) as (H1 & H2 & H3 & H4 & H5 & _).
  unfold dump. rewrite H1, H2, H3, H4, H5, get_dict_add_empty.
  split; [reflexivity|]. intros Hq. cbn [dump_cookies]. f_equal.
  apply map_eq. intros k. rewrite lookup_fmap.
  destruct (default ∅ (dump_cookies d) !! k) as [v|] eqn:Hk; [|reflexivity].
  cbn. f_equal. apply stored_value_plain. exact (Hq k v Hk).
Qed.

(** ** More on the session manager *)

(** X16: [provide_2fa] posts the code to [/auth/2fa]; when the request
    fails the credentials are untouched, and when it succeeds the [Scope]
    of the response is stored as it is received (it is not split into a
    list, unlike the one of [authenticate]) and returned, every other
    credential and the authentication headers staying what they were. *)
Theorem provide_2fa_scope code st r st' :
  provide_2fa code st = (r, st') ->
  match r with
  | Raise e => session_data (sess st') = session_data (sess st)
  | Ok scope =>
      exists response st1,
        api_request "/auth/2fa" (JObj [("TwoFactorCode", code)]) None None JNull false st
        = (Ok response, st1)
        /\ api_subscript response "Scope" = Ok scope
        /\ session_data (sess st') = <["Scope" := scope]> (session_data (sess st))
        /\ Scope (sess st') = scope
        /\ UID (sess st') = UID (sess st)
        /\ AccessToken (sess st') = AccessToken (sess st)
        /\ hget "Authorization" (headers (sess st')) = hget "Authorization" (headers (sess st))
        /\ hget "x-pm-uid" (headers (sess st')) = hget "x-pm-uid" (headers (sess st))
  end.
Proof.
  unfold provide_2fa. intros H. apply bind_inv in H.
  destruct H as [(response & st1 & Hreq & H)|(e & Hreq & ->)].
  - destruct (keeps_api_request _ _ _ _ _ _ _ _ _ Hreq) as [Hf _].
    destruct (frame_auth_headers _ _ Hf) as [Ha Hu].
    unfold bind, lift, sd_set, modify_sess, get_sess, ret in H.
    destruct (api_subscript response "Scope") as [scope|e] eqn:Hs.
    + inversion H; subst. clear H.
      unfold Scope, UID, AccessToken, sd_get. cbn.
      rewrite (fr_session_data _ _ Hf), lookup_insert_eq.
      rewrite !lookup_insert_ne by discriminate. cbn.
      exists response, st1. auto 10.
    + inversion H; subst. apply (fr_session_data _ _ Hf).
  - destruct (keeps_api_request _ _ _ _ _ _ _ _ _ Hreq) as [Hf _].
    apply (fr_session_data _ _ Hf).
Qed.

Lemma has_session_data_empty s : session_data s = ∅ -> has_session_data s = false.
Proof. unfold has_session_data. intros ->. reflexivity. Qed.

(** X17: [logout] on a session without credentials returns at once and
    changes nothing, no request being sent; hence a second [logout] after
    one that returned does nothing. *)
Theorem logout_idempotent st :
  (has_session_data (sess st) = false -> logout st = (Ok tt, st))
  /\ (forall u st', logout st = (Ok u, st') -> logout st' = (Ok tt, st')).
Proof.
  split.
  - intros H. rewrite logout_unfold, H. reflexivity.
  - intros u st' H. destruct (logout_returns _ _ _ H) as (Hsd & _).
    rewrite logout_unfold, (has_session_data_empty _ Hsd). reflexivity.
Qed.

(** X18: when the session holds some session data but not the
    [Authorization] header (after [provide_2fa] on a session that never
    authenticated, say), [logout] still sends DELETE [/auth] and then
    raises [KeyError] at line 457, keeping the session data; when only
    [x-pm-uid] is missing, the [KeyError] of line 458 comes after the
    [Authorization] header was deleted. *)
Theorem logout_missing_header st x st1 :
  has_session_data (sess st) = true ->
  api_request "/auth" JNull None (Some "DELETE") JNull false st = (Ok x, st1) ->
  (hget "Authorization" (headers (sess st)) = None ->
   logout st = (Raise (KeyError "authorization"), st1)
   /\ session_data (sess st1) = session_data (sess st))
  /\ (is_Some (hget "Authorization" (headers (sess st))) ->
      hget "x-pm-uid" (headers (sess st)) = None ->
      exists st2,
        logout st = (Raise (KeyError "x-pm-uid"), st2)
        /\ session_data (sess st2) = session_data (sess st)
        /\ hget "Authorization" (headers (sess st2)) = None).
Proof.
  intros Hsd Hreq. rewrite logout_unfold, Hsd. unfold logout_request. rewrite Hreq.
  destruct (keeps_api_request _ _ _ _ _ _ _ _ _ Hreq) as [Hf _].
  destruct (frame_auth_headers _ _ Hf) as [Ha Hu].
  pose proof (fr_session_data _ _ Hf) as Hs.
  unfold bind, del_header, get_sess, modify_sess, raise. cbn. split.
  - intros Hn. rewrite Ha, Hn. split; [reflexivity | exact Hs].
  - intros [a Hsome] Hn. rewrite Ha, Hsome. cbn. unfold hget, hdel in *.
    rewrite lookup_delete_ne by (vm_compute; discriminate).
    rewrite Hu, Hn. eexists. split; [reflexivity|]. cbn.
    split; [exact Hs | apply lookup_delete_eq].
Qed.

(** X19: [refresh] is not atomic.  When the request fails, the tokens
    and the [Authorization] header are unchanged; when the response has no
    [AccessToken], [KeyError] is raised with nothing changed; when it has
    an [AccessToken] but no [RefreshToken], the access token is already
    overwritten when the error is raised, while the [Authorization] header
    still carries the previous one. *)
Theorem refresh_failure st r st1 :
  api_request "/auth/refresh" (refresh_payload (sess st)) None None JNull false st
  = (r, st1) ->
  match r with
  | Raise e =>
      refresh st = (Raise e, st1)
      /\ session_data (sess st1) = session_data (sess st)
      /\ hget "Authorization" (headers (sess st1)) = hget "Authorization" (headers (sess st))
  | Ok response =>
      match api_subscript response "AccessToken" with
      | Raise e =>
          refresh st = (Raise e, st1)
          /\ session_data (sess st1) = session_data (sess st)
      | Ok a =>
          match api_subscript response "RefreshToken" with
          | Raise e =>
              exists st2,
                refresh st = (Raise e, st2)
                /\ AccessToken (sess st2) = a
                /\ RefreshToken (sess st2) = RefreshToken (sess st)
                /\ hget "Authorization" (headers (sess st2))
                   = hget "Authorization" (headers (sess st))
          | Ok _ => True
          end
      end
  end.
Proof.
  intros Hreq. destruct (keeps_api_request _ _ _ _ _ _ _ _ _ Hreq) as [Hf _].
  destruct (frame_auth_headers _ _ Hf) as [Ha _].
  pose proof (fr_session_data _ _ Hf) as Hs.
  unfold refresh, bind, get_sess, lift, sd_set, modify_sess. rewrite Hreq.
  destruct r as [response|e]; [|auto].
  destruct (api_subscript response "AccessToken") as [a|e]; [|auto].
  destruct (api_subscript response "RefreshToken") as [rt|e]; [exact I|].
  eexists. split; [reflexivity|]. unfold AccessToken, RefreshToken, sd_get. cbn.
  rewrite lookup_insert_eq, lookup_insert_ne by discriminate. rewrite Hs.
  split; [reflexivity|]. split; [reflexivity | exact Ha].
Qed.

(** ** More on [authenticate] *)

(** X20: when the exchange of [authenticate] reaches an [/auth] response
    with a [ServerProof] that decodes and that the SRP user accepts, with
    a UID, a string [AccessToken], a [RefreshToken], a [PasswordMode] and
    a string [Scope], the call stores these as the credentials, the scope
    split at white space into a list, sets [x-pm-uid] to the UID and
    [Authorization] to [Bearer] followed by the access token, sends
    nothing more, and returns the scope list. *)
Theorem authenticate_success username password st usr auth st1 proof64 proof uid tok rt pm
    sc :
  authenticate_exchange username password st = (Ok (usr, auth), st1) ->
  api_contains "ServerProof" auth = Ok true ->
  api_subscript auth "ServerProof" = Ok (JStr proof64) ->
  b64decode proof64 = Some proof ->
  authenticated (verify_session proof usr) = true ->
  api_subscript auth "UID" = Ok uid ->
  is_None uid = false ->
  api_subscript auth "AccessToken" = Ok (JStr tok) ->
  api_subscript auth "RefreshToken" = Ok rt ->
  api_subscript auth "PasswordMode" = Ok pm ->
  api_subscript auth "Scope" = Ok (JStr sc) ->
  exists st',
    authenticate username password st = (Ok (JArr (map JStr (split sc))), st')
    /\ UID (sess st') = uid
    /\ AccessToken (sess st') = JStr tok
    /\ RefreshToken (sess st') = rt
    /\ PasswordMode (sess st') = pm
    /\ Scope (sess st') = JArr (map JStr (split sc))
    /\ hget "x-pm-uid" (headers (sess st')) = Some uid
    /\ hget "Authorization" (headers (sess st')) = Some (JStr ("Bearer " ++ tok))
    /\ net_log st' = net_log st1.
Proof.
  intros Hex Hc Hp Hd Hv Hu Hn Ha Hr Hm Hs.
  unfold authenticate. rewrite (bind_ok _ _ _ _ _ Hex).
  unfold authenticate_finish, bind, lift, modify_sess, get_sess, set_header, ret.
  rewrite Hc, Hp. cbn [negb b64decode_json]. unfold b64decode_bytes. rewrite Hd, Hv.
  cbn [negb]. rewrite Hu, Ha, Hr, Hm, Hs. cbn [split_scope].
  set (sd := <["UID" := uid]> _).
  assert (L1 : sd !! "UID" = Some uid) by (subst sd; apply lookup_insert_eq).
  assert (L2 : sd !! "AccessToken" = Some (JStr tok)).
  { subst sd. rewrite lookup_insert_ne by discriminate. apply lookup_insert_eq. }
  assert (L3 : sd !! "RefreshToken" = Some rt).
  { subst sd. do 2 rewrite lookup_insert_ne by discriminate. apply lookup_insert_eq. }
  assert (L4 : sd !! "PasswordMode" = Some pm).
  { subst sd. do 3 rewrite lookup_insert_ne by discriminate. apply lookup_insert_eq. }
  assert (L5 : sd !! "Scope" = Some (JArr (map JStr (split sc)))).
  { subst sd. do 4 rewrite lookup_insert_ne by discriminate. apply lookup_insert_eq. }
  clearbody sd.
  unfold UID, AccessToken, RefreshToken, PasswordMode, Scope, sd_get.
  cbn [sess with_sess session_data set_session_data set_headers headers].
  rewrite L1. cbn [default from_option id]. rewrite Hn. unfold modify_sess. cbn.
  rewrite L2. cbn. rewrite L5. cbn. eexists. split; [reflexivity|]. cbn.
  rewrite L1, L2, L3, L4, L5. cbn. unfold hget, hset.
  rewrite (lookup_insert_ne _ (lower "Authorization")) by (vm_compute; discriminate).
  rewrite !lookup_insert_eq. repeat split; reflexivity.
Qed.

(** X21: when the [/auth] response carries a [ServerProof] that decodes
    but that the SRP user does not accept, [authenticate] raises
    [ValueError("Invalid server proof")] and the session holds no
    credentials. *)
Theorem authenticate_invalid_server_proof username password st usr auth st1 proof64 proof :
  authenticate_exchange username password st = (Ok (usr, auth), st1) ->
  api_contains "ServerProof" auth = Ok true ->
  api_subscript auth "ServerProof" = Ok (JStr proof64) ->
  b64decode proof64 = Some proof ->
  authenticated (verify_session proof usr) = false ->
  authenticate username password st = (Raise InvalidServerProof, st1)
  /\ session_data (sess st1) = ∅
  /\ UID (sess st1) = JNull.
Proof.
  intros Hex Hc Hp Hd Hv.
  assert (Hauth : authenticate username password st = (Raise InvalidServerProof, st1)).
  { unfold authenticate. rewrite (bind_ok _ _ _ _ _ Hex).
    unfold authenticate_finish, bind, lift. rewrite Hc, Hp. cbn [negb b64decode_json].
    unfold b64decode_bytes. rewrite Hd, Hv. reflexivity. }
  unfold authenticate_exchange in Hex. apply bind_inv in Hex.
  destruct Hex as [(u & st0 & Hlo & Hsrp)|(e & _ & He)]; [|discriminate].
  destruct (logout_returns _ _ _ Hlo) as (Hsd0 & _).
  destruct (keeps_authenticate_srp _ _ _ _ _ Hsrp) as [Hf _].
  assert (Hsd1 : session_data (sess st1) = ∅)
    by (rewrite (fr_session_data _ _ Hf); exact Hsd0).
  split; [exact Hauth|]. split; [exact Hsd1|].
  unfold UID, sd_get. now rewrite Hsd1, lookup_empty.
Qed.

(** X22: when the [Modulus] of the [/auth/info] response carries no valid
    signature, or one whose fingerprint in lower case is not the
    constant, [authenticate] raises [ValueError("Invalid modulus")] in the
    state the [/auth/info] request left: the [/auth] request is never
    sent and no credentials are stored. *)
Theorem authenticate_tampered_modulus username password st u st0 info st1 armored :
  logout st = (Ok u, st0) ->
  api_request "/auth/info"
    (JObj (with_client_secret (sess st0) [("Username", JStr username)]))
    None None JNull false st0 = (Ok info, st1) ->
  api_subscript info "Modulus" = Ok (JStr armored) ->
  valid (gpg_decrypt armored) = false
  \/ lower (fingerprint (gpg_decrypt armored)) <> SRP_MODULUS_KEY_FINGERPRINT ->
  authenticate username password st = (Raise InvalidModulus, st1)
  /\ session_data (sess st1) = ∅.
Proof.
  intros Hlo Hreq Hm Hbad.
  assert (Hv : verify_modulus armored = Raise InvalidModulus).
  { unfold verify_modulus. destruct Hbad as [Hval|Hfp].
    - rewrite Hval. reflexivity.
    - destruct (String.eqb_spec (lower (fingerprint (gpg_decrypt armored)))
                  SRP_MODULUS_KEY_FINGERPRINT); [contradiction|].
      now rewrite andb_false_r. }
  split.
  - unfold authenticate, authenticate_exchange.
    apply bind_raise. rewrite (bind_ok _ _ _ _ _ Hlo).
    unfold authenticate_srp, bind at 1, get_sess. cbv beta iota.
    rewrite (bind_ok _ _ _ _ _ Hreq). unfold bind, lift. rewrite Hm, Hv. reflexivity.
  - destruct (logout_returns _ _ _ Hlo) as (Hsd0 & _).
    destruct (keeps_api_request _ _ _ _ _ _ _ _ _ Hreq) as [Hf _].
    rewrite (fr_session_data _ _ Hf). exact Hsd0.
Qed.

(** ** Splitting the scope, matching the method *)

Lemma all_chars_rev p s : forall acc,
  all_chars p (rev_string s acc) = all_chars p s && all_chars p acc.
Proof.
  induction s as [|c s IH]; intros acc; [reflexivity|].
  change (rev_string (String c s) acc) with (rev_string s (String c acc)).
  rewrite IH. cbn [all_chars]. destruct (p c), (all_chars p s); reflexivity.
Qed.

Lemma rev_string_nonempty s : forall acc, acc <> "" -> rev_string s acc <> "".
Proof.
  induction s as [|c s IH]; intros acc H; [exact H|].
  change (rev_string (String c s) acc) with (rev_string s (String c acc)).
  apply IH. discriminate.
Qed.

Lemma split_ws_words s : forall cur,
  all_chars not_space cur = true ->
  Forall (fun w => w <> "" /\ all_chars not_space w = true) (split_ws s cur).
Proof.
  assert (W : forall c cur, all_chars not_space (String c cur) = true ->
              rev_string (String c cur) "" <> ""
              /\ all_chars not_space (rev_string (String c cur) "") = true).
  { intros c cur H. split.
    - change (rev_string (String c cur) "") with (rev_string cur (String c "")).
      apply rev_string_nonempty. discriminate.
    - rewrite all_chars_rev, H. reflexivity. }
  induction s as [|c s IH]; intros cur Hcur.
  - destruct cur as [|x cur]; cbn [split_ws]; [constructor|].
    constructor; [now apply W | constructor].
  - cbn [split_ws]. destruct (is_str_space c) eqn:Hc.
    + destruct cur as [|x cur]; [now apply IH|].
      constructor; [now apply W | now apply IH].
    + apply IH. cbn [all_chars]. unfold not_space at 1. now rewrite Hc, Hcur.
Qed.

Lemma split_ws_word s : forall cur,
  all_chars not_space s = true ->
  split_ws s cur = match rev_string s cur with
                   | EmptyString => []
                   | String c x => [rev_string (String c x) ""]
                   end.
Proof.
  induction s as [|c s IH]; intros cur H.
  - destruct cur; reflexivity.
  - cbn [all_chars] in H. apply andb_prop in H. destruct H as [Hc Hs].
    cbn [split_ws]. unfold not_space in Hc. apply negb_true_iff in Hc. rewrite Hc.
    now apply IH.
Qed.

Lemma split_ws_blank s : all_chars is_str_space s = true -> split_ws s "" = [].
Proof.
  induction s as [|c s IH]; intros H; [reflexivity|].
  cbn [all_chars] in H. apply andb_prop in H. destruct H as [Hc Hs].
  cbn [split_ws]. rewrite Hc. now apply IH.
Qed.

Lemma split_ws_app w : forall s cur,
  all_chars not_space w = true -> split_ws (w ++ s) cur = split_ws s (rev_string w cur).
Proof.
  induction w as [|c w IH]; intros s cur H; [reflexivity|].
  cbn [all_chars] in H. apply andb_prop in H. destruct H as [Hc Hw].
  change (String c w ++ s) with (String c (w ++ s)).
  cbn [split_ws]. unfold not_space in Hc. apply negb_true_iff in Hc. rewrite Hc.
  now apply IH.
Qed.

Lemma split_one_word s :
  s <> "" -> all_chars not_space s = true -> split s = [s].
Proof.
  intros Hne Hs. unfold split. rewrite (split_ws_word _ _ Hs).
  destruct (rev_string s "") as [|c x] eqn:E.
  - exfalso. apply Hne. rewrite <- (rev_string_involutive s), E. reflexivity.
  - rewrite <- E. now rewrite rev_string_involutive.
Qed.

(** X23: the words [str.split()] gives (the scope list of
    [authenticate]) are never empty and hold no white space of a [str]
    (the space, the codes 9 to 13 and 28 to 31, 133 and 160); a string
    that is one word is split into that word alone, a blank or empty
    string into no word at all, and two words with one character of
    white space between them into these two words. *)
Theorem split_words (s : string) :
  Forall (fun w => w <> "" /\ all_chars not_space w = true) (split s)
  /\ (s <> "" -> all_chars not_space s = true -> split s = [s])
  /\ (all_chars is_str_space s = true -> split s = [])
  /\ (forall w1 c w2,
        s = w1 ++ String c w2 ->
        w1 <> "" -> all_chars not_space w1 = true ->
        w2 <> "" -> all_chars not_space w2 = true ->
        is_str_space c = true ->
        split s = [w1; w2]).
Proof.
  split; [|split; [|split]].
  - now apply split_ws_words.
  - apply split_one_word.
  - apply split_ws_blank.
  - intros w1 c w2 -> Hn1 Hw1 Hn2 Hw2 Hc. unfold split.
    rewrite (split_ws_app _ _ _ Hw1). cbn [split_ws]. rewrite Hc.
    destruct (rev_string w1 "") as [|x r] eqn:E.
    + exfalso. apply Hn1. rewrite <- (rev_string_involutive w1), E. reflexivity.
    + rewrite <- E, rev_string_involutive. f_equal.
      exact (split_one_word w2 Hn2 Hw2).
Qed.

Lemma lower_char_idem c : lower_char (lower_char c) = lower_char c.
Proof. destruct c as [[] [] [] [] [] [] [] []]; reflexivity. Qed.

Lemma lower_idem s : lower (lower s) = lower s.
Proof.
  induction s as [|c s IH]; [reflexivity|].
  change (lower (String c s)) with (String (lower_char c) (lower s)).
  change (lower (String (lower_char c) (lower s)))
    with (String (lower_char (lower_char c)) (lower (lower s))).
  now rewrite lower_char_idem, IH.
Qed.

(** X24: the method of [api_request] is matched without regard to the
    case of its letters: a method and its lower-case form select the same
    verb, and two spellings of one accepted method that agree in lower
    case give the same call, result and state. *)
Theorem api_request_method_case endpoint jsondata additional_headers m params skip st :
  verb_of_method (lower m) = verb_of_method m
  /\ forall m', lower m' = lower m -> verb_of_method m <> None ->
       api_request endpoint jsondata additional_headers (Some m') params skip st
       = api_request endpoint jsondata additional_headers (Some m) params skip st.
Proof.
  split.
  - unfold verb_of_method. now rewrite lower_idem.
  - intros m' Hl Hv.
    assert (E : verb_of_method m' = verb_of_method m)
      by (unfold verb_of_method; now rewrite Hl).
    unfold api_request, api_request_with, fetch_response, bind, get_sess.
    cbv beta iota. cbn [select_fct]. rewrite E.
    destruct (verb_of_method m); [reflexivity | contradiction].
Qed.

End Properties.

Lemma api_request_policy_not_configured_witness :
  let st := Mock.state0 (Mock.session0 None) [Returns (Mock.resp 200 None)] [] in
  allow_alternative_routes (sess st) = None /\
  api_request "/vpn/logicals" JNull None (Some "GET") JNull false st
  = (Raise PolicyNotConfigured, st) /\
  net_log (snd (api_request "/vpn/logicals" JNull None (Some "GET") JNull false st)) = [].
Proof.
  intros st.
  assert (H : allow_alternative_routes (sess st) = None) by reflexivity.
  split; [exact H|].
  split; [exact (api_request_policy_not_configured _ _ _ _ _ _ st H)|].
  rewrite (api_request_policy_not_configured _ _ _ _ _ _ st H). reflexivity.
Defined.

Lemma verify_modulus_spec_witness :
  verify_modulus (Ext := Mock.ext) "signed: W0RFTU9d  " = Ok "W0RFTU9d"
  /\ verify_modulus (Ext := Mock.ext) "forged: W0RFTU9d" = Raise InvalidModulus
  /\ verify_modulus (Ext := Strict.ext) "signed: W0RFTU9d  " = Ok "W0RFTU9d"
  /\ verify_modulus (Ext := Strict.ext) "signed:A" = Raise BinasciiError.
Proof.
  split; [|split; [|split]].
  - refine (proj2 (proj1 (proj2 (verify_modulus_spec (Ext := Mock.ext)
                                   "signed: W0RFTU9d  ")) "W0RFTU9d") _).
    split; [split|]; reflexivity.
  - refine (proj2 (proj1 (verify_modulus_spec (Ext := Mock.ext) "forged: W0RFTU9d")) _).
    intros [H _]. discriminate H.
  - refine (proj2 (proj1 (proj2 (verify_modulus_spec (Ext := Strict.ext)
                                   "signed: W0RFTU9d  ")) "W0RFTU9d") _).
    split; [split|]; reflexivity.
  - refine (proj2 (proj1 (proj2 (proj2 (verify_modulus_spec (Ext := Strict.ext)
                                          "signed:A")))) _).
    split; [split|]; reflexivity.
Defined.

(** C5, as stated, fails on the blob [signed:A] with the decoder of
    [Strict]: the signature is good and the fingerprint of the signer is
    the constant up to case, yet nothing is returned, and the error raised
    is the [binascii.Error] of [base64.b64decode], not
    [ValueError("Invalid modulus")]. *)
Lemma verify_modulus_undecodable_plaintext :
  valid (gpg_decrypt (Externals := Strict.ext) "signed:A") = true
  /\ lower (fingerprint (gpg_decrypt (Externals := Strict.ext) "signed:A"))
     = SRP_MODULUS_KEY_FINGERPRINT (Externals := Strict.ext)
  /\ data (gpg_decrypt (Externals := Strict.ext) "signed:A") = "A"
  /\ b64decode (Externals := Strict.ext) "A" = None
  /\ verify_modulus (Ext := Strict.ext) "signed:A" = Raise BinasciiError
  /\ (forall modulus, verify_modulus (Ext := Strict.ext) "signed:A" <> Ok modulus)
  /\ verify_modulus (Ext := Strict.ext) "signed:A" <> Raise InvalidModulus.
Proof.
  assert (H : verify_modulus (Ext := Strict.ext) "signed:A" = Raise BinasciiError)
    by (vm_compute; reflexivity).
  repeat split; try (vm_compute; reflexivity); rewrite H; discriminate.
Qed.

(** C3: the resolution on [Runs.doh_state].  The response collected first
    has a TXT answer, the one collected after it has none: the routes of
    the first are overwritten by the empty set of the second, the loop goes
    on to the second name (four queries are logged) and the result is
    empty, where the claim has the set taken from the first response with
    an answer and the loop stopped there. *)
Theorem get_alternative_routes_from_dns_keeps_last :
  extract_dns_answer (Ext := Mock.ext) (Runs.quoted "alt1.example") tt
  = Ok {["alt1.example"]}
  /\ fst (get_alternative_routes_from_dns Runs.doh_state) = Ok ∅
  /\ List.length (net_log (snd (get_alternative_routes_from_dns Runs.doh_state))) = 4%nat.
Proof. repeat split; vm_compute; reflexivity. Qed.

(** C4: the retry on [Runs.alt_state] over two hosts.  The first host
    answers 404 without raising: it is stored in the route cache and the
    loop stops, the response object is falsy and [NetworkError] is raised;
    the second host, which would have answered 200, is never tried.  The
    same from [api_request] on [Runs.alt_state_full]: the alternative host
    answers 422, and the caller gets [NetworkError] with the host stored. *)
Theorem try_with_alt_routing_error_status :
  (let '(res, st) := try_alt_routes GET Runs.request_params
                       ["alt1.example"; "alt2.example"] Runs.alt_state in
   res = Raise (NetworkError "Network error")
   /\ metadata st = Some "https://alt1.example"
   /\ Mock.script (world st) = [Returns (Mock.resp 200 None)])
  /\ (let '(res, st) := api_request "/vpn/logicals" JNull None None JNull false
                          Runs.alt_state_full in
      res = Raise (NetworkError "Network error")
      /\ metadata st = Some "https://alt1.example").
Proof. split; vm_compute; repeat split; reflexivity. Qed.








(** C9: [api_request] on [Runs.alt_non_json_state].  The primary host and
    the probe refuse the connection, the alternative host answers 503
    with a body that is not JSON: the response object is falsy at line
    325 and the caller gets [NetworkError], where the claim has
    [ProtonAPIError] with the status code, the reason and the headers.
    The same answer from the primary host
    ([Runs.primary_non_json_state]) does raise that [ProtonAPIError]. *)
Theorem api_request_alt_route_non_json_body :
  body (Mock.resp 503 None) = None
  /\ (let '(res, st) := api_request "/vpn/logicals" JNull None None JNull false
                          Runs.alt_non_json_state in
      res = Raise (NetworkError "Network error")
      /\ res <> Raise (non_json_error (Mock.resp 503 None))
      /\ metadata st = Some "https://alt1.example"
      /\ Mock.script (world st) = [])
  /\ fst (api_request "/vpn/logicals" JNull None None JNull false
            Runs.primary_non_json_state)
     = Raise (ProtonAPIError (JObj [("Code", JNum 503); ("Error", JStr "reason");
                                    ("Headers", JObj [])])).
Proof.
  split; [reflexivity|]. split; vm_compute; [|reflexivity].
  repeat split; discriminate.
Qed.


Lemma api_request_unknown_method_witness :
  api_request "/vpn/logicals" JNull None (Some "HEAD") JNull false Cases.plain_state
  = (Raise (ValueError "Unknown method: HEAD"), Cases.plain_state).
Proof.
  exact (api_request_unknown_method "/vpn/logicals" JNull None "HEAD" JNull false
           Cases.plain_state false eq_refl eq_refl).
Defined.

Lemma api_request_first_request_witness :
  exists req new,
    net_log (snd (api_request "/vpn/logicals" JNull None None JNull false
                    Cases.plain_state))
    = NetHttp req :: new
    /\ req_verb req = GET
    /\ req_url req = "https://api.protonvpn.ch/vpn/logicals"
    /\ req_verify req = true.
Proof.
  destruct (api_request_first_request "/vpn/logicals" JNull None None JNull false
              Cases.plain_state false GET _ _ eq_refl eq_refl
              (surjective_pairing _))
    as (_ & req & new & Hl & Hv & Hu & Hy & _).
  exists req, new. repeat split; assumption.
Defined.

Lemma api_request_single_request_witness :
  fst (api_request "/vpn/logicals" JNull None None JNull false Cases.refused_state)
  = Raise NewConnectionError
  /\ List.length (net_log (snd (api_request "/vpn/logicals" JNull None None JNull false
                                  Cases.refused_state))) = 1%nat.
Proof.
  destruct (api_request_single_request "/vpn/logicals" JNull None None JNull false
              Cases.refused_state false GET _ _ eq_refl eq_refl eq_refl
              (surjective_pairing _)) as [Hl He].
  split; [exact He|]. rewrite Hl. reflexivity.
Defined.

Lemma api_request_unbound_response_witness :
  fst (api_request "/vpn/logicals" JNull None None JNull false Cases.flaky_state)
  = Raise UnboundLocalError.
Proof.
  assert (Hp : _is_api_reacheable
                 (after_first_request true GET "/vpn/logicals" JNull None JNull
                    Cases.flaky_state)
               = (Ok true,
                  snd (_is_api_reacheable
                         (after_first_request true GET "/vpn/logicals" JNull None JNull
                            Cases.flaky_state))))
    by (vm_compute; reflexivity).
  rewrite (api_request_unbound_response "/vpn/logicals" JNull None None JNull
             Cases.flaky_state GET _ eq_refl eq_refl eq_refl eq_refl Hp).
  reflexivity.
Defined.





Lemma human_verification_token_roundtrip_witness :
  human_verification_token
    (set_human_verification_token (JStr "captcha", JStr "tok") (Runs.session1 None))
  = (JStr "captcha", JStr "tok")
  /\ hget "Authorization"
       (headers (set_human_verification_token (JStr "captcha", JStr "tok")
                   (Runs.session1 None)))
     = Some (JStr "Bearer a1").
Proof.
  destruct (human_verification_token_roundtrip (JStr "captcha", JStr "tok")
              (Runs.session1 None)) as (H1 & _ & _ & H4 & _).
  split; [exact H1|].
  destruct (H4 (lower "Authorization")) as [H _];
    [vm_compute; discriminate | vm_compute; discriminate |].
  unfold hget. rewrite H. reflexivity.
Defined.

Lemma try_with_alt_routing_returns_witness :
  exists st', try_with_alt_routing GET Runs.request_params Routes.found_state
              = (Ok (Mock.resp 200 (Some Cases.ok_body)), st')
    /\ exists route req prefix,
         net_log st' = (prefix ++ [NetHttp req])%list
         /\ req_url req = ("https://" ++ route) ++ "/vpn/logicals"
         /\ req_verify req = false
         /\ metadata st' = Some ("https://" ++ route)
         /\ req_adapters req !! ("https://" ++ route) = Some (TLSPinningAdapter true).
Proof.
  assert (H : try_with_alt_routing GET Runs.request_params Routes.found_state
              = (Ok (Mock.resp 200 (Some Cases.ok_body)),
                 snd (try_with_alt_routing GET Runs.request_params Routes.found_state)))
    by (vm_compute; reflexivity).
  eexists. split; [exact H|].
  destruct (try_with_alt_routing_returns _ _ _ _ _ H)
    as (_ & routes & route & req & prefix & w & _ & _ & Hl & _ & _ & Hu & Hy & Hm & Ha).
  exists route, req, prefix. repeat split; try assumption.
  apply Ha. reflexivity.
Defined.

Lemma try_with_alt_routing_no_route_witness :
  exists st1, try_with_alt_routing GET Runs.request_params Routes.silent_state
              = (Raise (NetworkError "Network error"), st1)
    /\ metadata st1 = None
    /\ Mock.script (world st1) = [Returns (Mock.resp 200 (Some Cases.ok_body))].
Proof.
  assert (H : get_alternative_routes_from_dns Routes.silent_state
              = (Ok ∅, snd (get_alternative_routes_from_dns Routes.silent_state)))
    by (vm_compute; reflexivity).
  destruct (try_with_alt_routing_no_route GET Runs.request_params _ _ H)
    as (H1 & _ & H2 & _).
  eexists. split; [exact H1|]. split; [exact H2|]. vm_compute. reflexivity.
Defined.

Lemma extract_dns_answer_spec_witness :
  extract_dns_answer (Ext := Mock.ext) (Runs.quoted "alt1.example") tt
  = Ok (routes_of_rrset [Runs.quoted "alt1.example"])
  /\ strip_by is_quote (Runs.quoted "alt1.example") = "alt1.example".
Proof.
  destruct (extract_dns_answer_spec (Ext := Mock.ext) (Runs.quoted "alt1.example") tt)
    as (H1 & _ & H3).
  split; [exact H1|]. apply H3. split; reflexivity.
Defined.

Lemma load_resets_policy_witness :
  exists s, load (dump (Runs.session1 (Some true))) "log" "cache" true (JNum 10) JNull = Ok s
    /\ allow_alternative_routes (Runs.session1 (Some true)) = Some true
    /\ allow_alternative_routes s = None
    /\ api_request "/vpn/logicals" JNull None None JNull false (Mock.state0 s [] [])
       = (Raise PolicyNotConfigured, Mock.state0 s [] []).
Proof.
  assert (H : load (dump (Runs.session1 (Some true))) "log" "cache" true (JNum 10) JNull
              = Ok (Runs.session1 None)) by (vm_compute; reflexivity).
  exists (Runs.session1 None). split; [exact H|]. split; [reflexivity|].
  destruct (load_resets_policy (Ext := Mock.ext) _ _ _ _ _ _ _ H)
    as (H1 & _ & _ & _ & H5 & _).
  split; [exact H1|]. apply H5. reflexivity.
Defined.


Lemma load_dump_roundtrip_witness :
  exists s, load Runs.dump1 "log" "cache" true (JNum 10) JNull = Ok s
    /\ dump s = Runs.dump1.
Proof.
  assert (H : load Runs.dump1 "log" "cache" true (JNum 10) JNull = Ok (Runs.session1 None))
    by (vm_compute; reflexivity).
  exists (Runs.session1 None). split; [exact H|].
  rewrite (proj1 (load_dump_roundtrip _ _ _ _ _ _ _ H)). vm_compute. reflexivity.
Defined.

Lemma provide_2fa_scope_witness :
  exists st', provide_2fa (JStr "123456") Manager.twofa_state = (Ok (JStr "full self"), st')
    /\ Scope (sess st') = JStr "full self"
    /\ UID (sess st') = JStr "u1".
Proof.
  assert (H : provide_2fa (JStr "123456") Manager.twofa_state
              = (Ok (JStr "full self"),
                 snd (provide_2fa (JStr "123456") Manager.twofa_state)))
    by (vm_compute; reflexivity).
  eexists. split; [exact H|].
  destruct (provide_2fa_scope _ _ _ _ H) as (_ & _ & _ & _ & _ & Hsc & Hu & _).
  split; [exact Hsc|]. rewrite Hu. reflexivity.
Defined.

Lemma logout_idempotent_witness :
  logout Cases.plain_state = (Ok tt, Cases.plain_state).
Proof. exact (proj1 (logout_idempotent Cases.plain_state) eq_refl). Defined.

Lemma logout_missing_header_witness :
  exists st1, logout Manager.scope_only_state = (Raise (KeyError "authorization"), st1)
    /\ session_data (sess st1) = session_data (sess Manager.scope_only_state).
Proof.
  assert (H : api_request "/auth" JNull None (Some "DELETE") JNull false
                Manager.scope_only_state
              = (Ok (RetJson Cases.ok_body),
                 snd (api_request "/auth" JNull None (Some "DELETE") JNull false
                        Manager.scope_only_state)))
    by (vm_compute; reflexivity).
  eexists.
  exact (proj1 (logout_missing_header Manager.scope_only_state _ _ eq_refl H) eq_refl).
Defined.

Lemma refresh_failure_witness :
  exists st1, refresh Manager.refresh_refused_state = (Raise NewConnectionError, st1)
    /\ session_data (sess st1) = session_data (sess Manager.refresh_refused_state).
Proof.
  assert (H : api_request "/auth/refresh"
                (refresh_payload (sess Manager.refresh_refused_state)) None None JNull false
                Manager.refresh_refused_state
              = (Raise NewConnectionError,
                 snd (api_request "/auth/refresh"
                        (refresh_payload (sess Manager.refresh_refused_state)) None None
                        JNull false Manager.refresh_refused_state)))
    by (vm_compute; reflexivity).
  destruct (refresh_failure _ _ _ H) as (H1 & H2 & _).
  eexists. split; [exact H1 | exact H2].
Defined.

Lemma authenticate_success_witness :
  exists st', authenticate "alice" "pw" Auth.happy_state
              = (Ok (JArr [JStr "mail"; JStr "vpn"]), st')
    /\ UID (sess st') = JStr "u1"
    /\ hget "Authorization" (headers (sess st')) = Some (JStr "Bearer a1").
Proof.
  assert (Hex : authenticate_exchange "alice" "pw" Auth.happy_state
                = (Ok (false, RetJson Auth.auth_response),
                   snd (authenticate_exchange "alice" "pw" Auth.happy_state)))
    by (vm_compute; reflexivity).
  destruct (authenticate_success "alice" "pw" Auth.happy_state false
              (RetJson Auth.auth_response) _ "M2" "M2" (JStr "u1") "a1" (JStr "r1")
              (JNum 1) "mail vpn" Hex eq_refl eq_refl eq_refl eq_refl eq_refl eq_refl
              eq_refl eq_refl eq_refl eq_refl)
    as (st' & H & Hu & _ & _ & _ & _ & _ & Ha & _).
  exists st'. split; [exact H|]. split; [exact Hu | exact Ha].
Defined.

Lemma authenticate_invalid_server_proof_witness :
  exists st1, authenticate "alice" "pw" Auth.bad_proof_state
              = (Raise InvalidServerProof, st1)
    /\ UID (sess st1) = JNull.
Proof.
  assert (Hex : authenticate_exchange "alice" "pw" Auth.bad_proof_state
                = (Ok (false, RetJson Auth.bad_proof_response),
                   snd (authenticate_exchange "alice" "pw" Auth.bad_proof_state)))
    by (vm_compute; reflexivity).
  destruct (authenticate_invalid_server_proof "alice" "pw" Auth.bad_proof_state false
              (RetJson Auth.bad_proof_response) _ "M3" "M3" Hex eq_refl eq_refl eq_refl
              eq_refl) as (H & _ & Hu).
  eexists. split; [exact H | exact Hu].
Defined.

Lemma authenticate_tampered_modulus_witness :
  exists st1, authenticate "alice" "pw" Auth.forged_state = (Raise InvalidModulus, st1)
    /\ Mock.script (world st1) = [Returns (Mock.resp 200 (Some Auth.auth_response))].
Proof.
  assert (Hreq : api_request "/auth/info"
                   (JObj (with_client_secret (sess Auth.forged_state)
                            [("Username", JStr "alice")]))
                   None None JNull false Auth.forged_state
                 = (Ok (RetJson Auth.forged_info_response),
                    snd (api_request "/auth/info"
                           (JObj (with_client_secret (sess Auth.forged_state)
                                    [("Username", JStr "alice")]))
                           None None JNull false Auth.forged_state)))
    by (vm_compute; reflexivity).
  destruct (authenticate_tampered_modulus "alice" "pw" Auth.forged_state tt
              Auth.forged_state (RetJson Auth.forged_info_response) _ "forged:W0RFTU9d"
              eq_refl Hreq eq_refl (or_introl eq_refl)) as [H _].
  eexists. split; [exact H|]. vm_compute. reflexivity.
Defined.

Lemma split_words_witness :
  split "full" = ["full"] /\ split "   " = []
  /\ split ("mail" ++ String (ascii_of_nat 31) "vpn") = ["mail"; "vpn"]
  /\ split ("mail" ++ String (ascii_of_nat 160) "vpn") = ["mail"; "vpn"].
Proof.
  destruct (split_words "full") as (_ & H & _).
  destruct (split_words "   ") as (_ & _ & H' & _).
  destruct (split_words ("mail" ++ String (ascii_of_nat 31) "vpn")) as (_ & _ & _ & H1).
  destruct (split_words ("mail" ++ String (ascii_of_nat 160) "vpn")) as (_ & _ & _ & H2).
  split; [apply H; [discriminate | reflexivity]|].
  split; [apply H'; reflexivity|].
  split; [apply (H1 "mail" (ascii_of_nat 31) "vpn") | apply (H2 "mail" (ascii_of_nat 160) "vpn")];
    solve [reflexivity | discriminate].
Defined.

Lemma api_request_method_case_witness :
  api_request "/auth" JNull None (Some "Delete") JNull false Cases.plain_state
  = api_request "/auth" JNull None (Some "DELETE") JNull false Cases.plain_state.
Proof.
  apply (proj2 (api_request_method_case "/auth" JNull None "DELETE" JNull false
                  Cases.plain_state)); [reflexivity | discriminate].
Defined.
